(** * ResumeQueryAgent: a shallow embedding of the ingestion and query glue

    The development follows the two scripts of the repository:
    - [pdf_to_json.py]: [normalize_skills] and [convert_pdfs_to_json];
    - [json_resume_query.py]: the evidence merge ([merged_context],
      [context_text]) and the final display of the model's answer.

    Python values are modelled as the code sees them.  A [str] is a
    [string] whose characters are read as code points below 256
    (Latin-1); [str.strip] and [str.lower] are given on that range.  A
    decoded JSON document is a [json] value; a Python [dict] is an
    association list in insertion order; a Python [set] is represented
    by its insertion history, and the order in which it is iterated is
    supplied by the environment, since CPython fixes it only up to the
    process hash seed.  Exceptions that the scripts do not catch are
    kept as the [Raise] outcome of a small error monad. *)

From Stdlib Require Import String Ascii List Bool Arith ZArith NArith Lia.
From Stdlib Require Import Sorting.Sorted Sorting.Permutation.
From Stdlib Require Import DecimalString.
Import ListNotations.

Local Open Scope string_scope.
Local Open Scope list_scope.

(** ** Python strings *)

Module PyStr.

(** [ch.isspace()] for a code point below 256. *)
Definition isspace (c : ascii) : bool :=
  let n := N_of_ascii c in
  ((9 <=? n) && (n <=? 13) || (28 <=? n) && (n <=? 32)
   || (n =? 133) || (n =? 160))%N.

(** [ch.lower()] for a code point below 256: the ASCII capitals and
    the Latin-1 capitals (all of 0xC0..0xDE but the multiplication
    sign 0xD7) move up by 32. *)
Definition lower_char (c : ascii) : ascii :=
  let n := N_of_ascii c in
  if ((65 <=? n) && (n <=? 90)
      || (192 <=? n) && (n <=? 222) && negb (n =? 215))%N
  then ascii_of_N (n + 32) else c.

(** [str.lower]. *)
Fixpoint lower (s : string) : string :=
  match s with
  | EmptyString => EmptyString
  | String c r => String (lower_char c) (lower r)
  end.

Fixpoint lstrip (s : string) : string :=
  match s with
  | EmptyString => EmptyString
  | String c r => if isspace c then lstrip r else s
  end.

Fixpoint rstrip (s : string) : string :=
  match s with
  | EmptyString => EmptyString
  | String c r =>
      match rstrip r with
      | EmptyString => if isspace c then EmptyString else String c EmptyString
      | r' => String c r'
      end
  end.

(** [str.strip()] with no argument. *)
Definition strip (s : string) : string := rstrip (lstrip s).

(** Truth value of a [str]: non-empty. *)
Definition truthy (s : string) : bool :=
  match s with EmptyString => false | _ => true end.

(** The character class of the pattern [r"[(),]"]. *)
Definition is_delim (c : ascii) : bool :=
  (c =? "(")%char || (c =? ")")%char || (c =? ",")%char.

(** [re.split(r"[(),]", s)]: the pieces between delimiter characters,
    empty pieces included; a string with [n] delimiters has [n + 1]
    pieces. *)
Fixpoint re_split (s : string) : list string :=
  match s with
  | EmptyString => [EmptyString]
  | String c r =>
      if is_delim c then EmptyString :: re_split r
      else match re_split r with
           | p :: ps => String c p :: ps
           | [] => [String c EmptyString]
           end
  end.

(** [sep.join(parts)]. *)
Definition join (sep : string) (parts : list string) : string :=
  String.concat sep parts.

(** [s.rfind(".")], [-1] when there is no dot. *)
Fixpoint rfind_dot (s : string) : Z :=
  match s with
  | EmptyString => (-1)%Z
  | String c r =>
      let i := rfind_dot r in
      if (0 <=? i)%Z then (i + 1)%Z
      else if (c =? ".")%char then 0%Z else (-1)%Z
  end.

(** [s[:i]] for [0 <= i]. *)
Fixpoint take (i : nat) (s : string) : string :=
  match i, s with
  | S k, String c r => String c (take k r)
  | _, _ => EmptyString
  end.

(** [s.endswith(suffix)]. *)
Definition endswith (s suffix : string) : bool :=
  let n := String.length s in
  let m := String.length suffix in
  (m <=? n)%nat && (String.substring (n - m) m s =? suffix).

(** [str(n)] for a non-negative [int]. *)
Definition of_nat (n : nat) : string :=
  NilZero.string_of_uint (Nat.to_uint n).

(** The case-insensitive order used as sort key: [a.lower() <= b.lower()]. *)
Definition le_lower (a b : string) : Prop :=
  String.leb (lower a) (lower b) = true.

Definition leb_lower (a b : string) : bool :=
  String.leb (lower a) (lower b).

(** [sorted(xs, key=str.lower)]: Python's sort is stable, so among
    entries with equal keys the input order is kept.  Inserting each
    element in front of the first strictly greater-or-equal key of the
    already sorted tail gives that result. *)
Fixpoint insert_lower (x : string) (l : list string) : list string :=
  match l with
  | [] => [x]
  | y :: r => if leb_lower x y then x :: l else y :: insert_lower x r
  end.

Fixpoint sorted_lower (l : list string) : list string :=
  match l with
  | [] => []
  | x :: r => insert_lower x (sorted_lower r)
  end.

(** The last character of a non-empty string. *)
Fixpoint last_char (s : string) : option ascii :=
  match s with
  | EmptyString => None
  | String c EmptyString => Some c
  | String _ r => last_char r
  end.

(** [c in s]. *)
Definition char_in (c : ascii) (s : string) : Prop :=
  In c (list_ascii_of_string s).

End PyStr.

(** ** Uncaught exceptions and the error monad *)

Inductive exn : Type :=
| AttributeError
| TypeError
| ValueError
| RecursionError
| OSError
| OtherError (class_name : string).

Inductive result (A : Type) : Type :=
| Ok (a : A)
| Raise (e : exn).

Arguments Ok {A} a.
Arguments Raise {A} e.

Definition bind {A B : Type} (m : result A) (k : A -> result B) : result B :=
  match m with
  | Ok a => k a
  | Raise e => Raise e
  end.

Notation "'let*' x ':=' m 'in' k" := (bind m (fun x => k))
  (at level 10, x pattern, m at level 100, k at level 200).

(** ** Decoded JSON *)

(** What [json.loads] returns.  A float is carried by its literal: no
    code path of the scripts looks inside a number.  An object keeps its
    items in insertion order; [dict_get] reads the first binding of a
    key and [dict_keys] lists each key once, so every association list
    stands for a dict. *)
#[warnings="-register-all"]
Inductive json : Type :=
| JNull
| JBool (b : bool)
| JInt (z : Z)
| JFloat (literal : string)
| JStr (s : string)
| JArr (items : list json)
| JObj (fields : list (string * json)).

(** Keeps the first occurrence of every element, in order. *)
Fixpoint first_seen (l : list string) : list string :=
  match l with
  | [] => []
  | x :: r => x :: filter (fun y => negb (y =? x)) (first_seen r)
  end.

Fixpoint dict_lookup {V : Type} (d : list (string * V)) (k : string) : option V :=
  match d with
  | [] => None
  | (k', v) :: r => if k' =? k then Some v else dict_lookup r k
  end.

(** [d.get(k, default)]. *)
Definition dict_get {V : Type} (d : list (string * V)) (k : string) (default : V) : V :=
  match dict_lookup d k with
  | Some v => v
  | None => default
  end.

Definition dict_keys {V : Type} (d : list (string * V)) : list string :=
  first_seen (map fst d).

(** [v.get(k, default)] on a decoded value: only a dict has [get]. *)
Definition py_get (v : json) (k : string) (default : json) : result json :=
  match v with
  | JObj d => Ok (dict_get d k default)
  | _ => Raise AttributeError
  end.

Fixpoint chars (s : string) : list string :=
  match s with
  | EmptyString => []
  | String c r => String c EmptyString :: chars r
  end.

(** [for x in v]: a list yields its items, a dict its keys, a str its
    characters; [None], booleans and numbers are not iterable. *)
Definition py_iter (v : json) : result (list json) :=
  match v with
  | JArr items => Ok items
  | JObj d => Ok (map JStr (dict_keys d))
  | JStr s => Ok (map JStr (chars s))
  | _ => Raise TypeError
  end.

(** [v.strip()]: only a str has [strip]. *)
Definition py_strip (v : json) : result string :=
  match v with
  | JStr s => Ok (PyStr.strip s)
  | _ => Raise AttributeError
  end.

(** [re.split(r"[(),]", v)]: anything but a str is a [TypeError]. *)
Definition py_re_split (v : json) : result (list string) :=
  match v with
  | JStr s => Ok (PyStr.re_split s)
  | _ => Raise TypeError
  end.

(** ** The canonical record of pdf_to_json.py *)

Record PersonalDetails : Type := {
  date_of_birth : string;
  age : Z;
  gender : string
}.

Record SocialProfiles : Type := {
  github : json;
  linkedin : json;
  twitter : string;
  leetcode : string;
  others : list json
}.

Record Analysis : Type := {
  strengths : list json;
  gaps : list json;
  matching_points : list json;
  improvement_areas : list json
}.

Record DetailedScoring : Type := {
  skills_match : Z;
  experience_relevance : Z;
  education_fit : Z;
  overall_potential : Z
}.

Record CompatibilityAnalysis : Type := {
  overall_score : Z;
  analysis : Analysis;
  detailed_scoring : DetailedScoring
}.

Record Binary : Type := {
  base64 : string;
  subType : string
}.

Record Resume : Type := {
  id_oid : string;
  name : json;
  email : json;
  secondary_email : string;
  primary_phone : json;
  secondary_phone : string;
  cv_directory_link : string;
  unique_id : string;
  designation : json;
  location : json;
  personal_details : PersonalDetails;
  social_profiles : SocialProfiles;
  education : json;
  work_experience : json;
  total_experience : string;
  technical_skills : list string;
  soft_skills : list json;
  languages : json;
  certifications : json;
  projects : json;
  keywords : list string;
  batch_id : Binary;
  job_id : string;
  updated_at : string;
  created_at : string;
  status : string;
  compatibility_analysis : CompatibilityAnalysis
}.

(** ** The outside world *)

(** The calls to libraries and to the operating system that can end in
    an exception which no [except] clause of the scripts catches. *)
Inductive call : Type :=
(** [input_path.glob("*.pdf")], when the directory is scanned. *)
| Glob (input_dir : string)
(** [PyPDFLoader(...).load()] and [chain.invoke] on one file. *)
| Extract (input_dir pdf_file : string)
(** [json.loads] raising something that is no [JSONDecodeError]:
    [ValueError] for an integer literal beyond the digit limit,
    [RecursionError] for deep nesting. *)
| Loads (text : string)
(** [json.dumps(v, indent=2)] of the display step. *)
| Dumps (v : json)
(** [print] of one line. *)
| Stdout (line : string)
(** [output_path.parent.mkdir] and [open(output_path, "w")]. *)
| OpenFile (path : string)
(** [json.dump] into the file just opened. *)
| DumpFile (path : string) (content : list Resume)
(** [chain.invoke] of the query script. *)
| Answer (query doc : string).

(** Everything the scripts obtain from libraries, services and the
    operating system.  [set_iter] gives the order in which a Python
    [set] with the given insertion history is iterated.  [raises] tells
    which calls end in an exception; the value fields say what a call
    gives when it does not. *)
Record Env : Type := {
  raises : call -> option exn;
  set_iter : list string -> list string;
  (** [os.scandir] order of the names in a directory. *)
  listdir : string -> list string;
  (** [PyPDFLoader] and [chain.invoke] on one file of a directory. *)
  raw_output_of : string -> string -> string;
  (** [json.loads]; [None] stands for [json.JSONDecodeError].  Any other
      exception of [json.loads] is a [Loads] entry of [raises]. *)
  json_loads : string -> option json;
  (** [json.dumps(v, indent=2)]. *)
  json_dumps : json -> string;
  (** [datetime.utcnow().isoformat()] at the n-th reading of the clock. *)
  utcnow : nat -> string;
  (** [str(Path(p))]. *)
  path_str : string -> string;
  (** The answer chain of the query script on a query and a context. *)
  answer_chain : string -> string -> string
}.

(** What Python guarantees of a set's iteration: some enumeration,
    without repetition, of exactly the strings inserted. *)
Definition set_iter_spec (E : Env) : Prop :=
  forall h, NoDup (set_iter E h) /\ forall x, In x (set_iter E h) <-> In x h.

Definition nl : string := String (ascii_of_nat 10) EmptyString.

(** ** pdf_to_json.py *)

(** *** Path helpers *)

(** [fnmatch] of a file name against ["*.pdf"], as [Path.glob] applies
    it on a case-sensitive (POSIX) file system, where hidden files are
    not special; on Windows the match ignores case, which this
    definition does not cover. *)
Definition matches_pdf (file_name : string) : bool :=
  PyStr.endswith file_name ".pdf".

(** [input_path.glob("*.pdf")]: the matching names, in the order the
    directory is scanned.  No sort is applied. *)
Definition glob_pdf (E : Env) (input_dir : string) : list string :=
  filter matches_pdf (listdir E input_dir).

(** [PurePath.stem]: the name up to its last dot, unless that dot is
    the first or the last character. *)
Definition stem (file_name : string) : string :=
  let i := PyStr.rfind_dot file_name in
  if ((0 <? i) && (i <? Z.of_nat (String.length file_name) - 1))%Z
  then PyStr.take (Z.to_nat i) file_name
  else file_name.

Section Ingestion.

Variable E : Env.

(** *** normalize_skills *)

(** The inner loop over [parts]. *)
Fixpoint append_cleaned (parts : list string) (normalized : list string)
  : list string :=
  match parts with
  | [] => normalized
  | p :: rest =>
      let cleaned := PyStr.strip p in
      if PyStr.truthy cleaned
      then append_cleaned rest (normalized ++ [cleaned])
      else append_cleaned rest normalized
  end.

(** The outer loop over the items of [skills_list]. *)
Fixpoint normalize_loop (items : list json) (normalized : list string)
  : result (list string) :=
  match items with
  | [] => Ok normalized
  | skill :: rest =>
      let* parts := py_re_split skill in
      normalize_loop rest (append_cleaned parts normalized)
  end.

Definition normalize_skills (skills_list : json) : result (list string) :=
  let* items := py_iter skills_list in
  let* normalized := normalize_loop items [] in
  Ok (PyStr.sorted_lower (set_iter E normalized)).

(** *** Keyword gathering *)

(** [for tech in proj.get("technologies", []): keywords.add(tech.strip())].
    The set is carried as its insertion history. *)
Fixpoint add_technologies (techs : list json) (keywords : list string)
  : result (list string) :=
  match techs with
  | [] => Ok keywords
  | tech :: rest =>
      let* t := py_strip tech in
      add_technologies rest (keywords ++ [t])
  end.

Fixpoint add_projects (projs : list json) (keywords : list string)
  : result (list string) :=
  match projs with
  | [] => Ok keywords
  | proj :: rest =>
      let* technologies := py_get proj "technologies" (JArr []) in
      let* techs := py_iter technologies in
      let* keywords' := add_technologies techs keywords in
      add_projects rest keywords'
  end.

(** One certification: a dict contributes its stripped ["name"] when
    that is non-empty, a str contributes its stripped text, anything
    else nothing. *)
Definition add_certification (cert : json) (keywords : list string)
  : result (list string) :=
  match cert with
  | JObj _ =>
      let* n := py_get cert "name" (JStr "") in
      let* cname := py_strip n in
      if PyStr.truthy cname then Ok (keywords ++ [cname]) else Ok keywords
  | JStr s => Ok (keywords ++ [PyStr.strip s])
  | _ => Ok keywords
  end.

Fixpoint add_certifications (certs : list json) (keywords : list string)
  : result (list string) :=
  match certs with
  | [] => Ok keywords
  | cert :: rest =>
      let* keywords' := add_certification cert keywords in
      add_certifications rest keywords'
  end.

(** The insertion history of [keywords] once the three loops ran. *)
Definition gather_keywords (parsed_core : json) (skills : list string)
  : result (list string) :=
  let keywords := skills in
  let* projects_v := py_get parsed_core "projects" (JArr []) in
  let* projs := py_iter projects_v in
  let* keywords := add_projects projs keywords in
  let* certifications_v := py_get parsed_core "certifications" (JArr []) in
  let* certs := py_iter certifications_v in
  add_certifications certs keywords.

(** *** The body of the [try] block *)

Definition zero_analysis : CompatibilityAnalysis :=
  {| overall_score := 0;
     analysis := {| strengths := []; gaps := [];
                    matching_points := []; improvement_areas := [] |};
     detailed_scoring := {| skills_match := 0; experience_relevance := 0;
                            education_fit := 0; overall_potential := 0 |} |}.

(** From [parsed_core] to [structured_resume], for the file whose
    stem is [file_stem]; [now] is the number of clock readings made so
    far. *)
Definition structure_resume (file_stem : string) (parsed_core : json) (now : nat)
  : result Resume :=
  let* skills_v := py_get parsed_core "skills" (JArr []) in
  let* skills := normalize_skills skills_v in
  let* keywords_set := gather_keywords parsed_core skills in
  let* v_name := py_get parsed_core "name" (JStr "") in
  let* v_email := py_get parsed_core "email" (JStr "") in
  let* v_phone := py_get parsed_core "phone" (JStr "") in
  let* v_designation := py_get parsed_core "designation" (JStr "") in
  let* v_location := py_get parsed_core "location" (JStr "") in
  let* v_github := py_get parsed_core "github" (JStr "") in
  let* v_linkedin := py_get parsed_core "linkedin" (JStr "") in
  let* v_education := py_get parsed_core "education" (JArr []) in
  let* v_work_experience := py_get parsed_core "work_experience" (JArr []) in
  let* v_languages := py_get parsed_core "languages" (JArr []) in
  let* v_certifications := py_get parsed_core "certifications" (JArr []) in
  let* v_projects := py_get parsed_core "projects" (JArr []) in
  Ok {| id_oid := "auto-generate";
        name := v_name;
        email := v_email;
        secondary_email := "";
        primary_phone := v_phone;
        secondary_phone := "";
        cv_directory_link := "CVs/" ++ file_stem;
        unique_id := file_stem;
        designation := v_designation;
        location := v_location;
        personal_details := {| date_of_birth := ""; age := 0; gender := "" |};
        social_profiles := {| github := v_github; linkedin := v_linkedin;
                              twitter := ""; leetcode := ""; others := [] |};
        education := v_education;
        work_experience := v_work_experience;
        total_experience := "2+ years";
        technical_skills := skills;
        soft_skills := [];
        languages := v_languages;
        certifications := v_certifications;
        projects := v_projects;
        keywords := PyStr.sorted_lower (set_iter E keywords_set);
        batch_id := {| base64 := "auto-generate"; subType := "04" |};
        job_id := "auto-generate";
        updated_at := utcnow E now ++ "Z";
        created_at := utcnow E (S now) ++ "Z";
        status := "New";
        compatibility_analysis := zero_analysis |}.

(** *** convert_pdfs_to_json *)

(** What a run leaves behind: the lines printed, the number of clock
    readings, and the files written (path and content, the newest
    binding of a path first). *)
Record world : Type := {
  stdout : list string;
  clock : nat;
  written : list (string * list Resume)
}.

Definition print (line : string) (w : world) : world :=
  {| stdout := stdout w ++ [line]; clock := clock w; written := written w |}.

Definition tick2 (w : world) : world :=
  {| stdout := stdout w; clock := S (S (clock w)); written := written w |}.

(** [open(path, "w")] followed by [json.dump], when neither raises:
    replaces the content.  Files are told apart by the text of their
    path; links and other spellings of one file are outside the model. *)
Definition write_json (path : string) (content : list Resume) (w : world) : world :=
  {| stdout := stdout w; clock := clock w;
     written := (path, content)
                  :: filter (fun kv => negb (fst kv =? path)) (written w) |}.

(** A [json.dump] that raises leaves a partial file behind: the path
    no longer holds a collection. *)
Definition lose_file (path : string) (w : world) : world :=
  {| stdout := stdout w; clock := clock w;
     written := filter (fun kv => negb (fst kv =? path)) (written w) |}.

(** A call that may raise, in front of what follows it: the exception
    leaves the function with the world as it is at that point. *)
Definition guarded {A : Type} (c : call) (w : world) (rest : result A * world)
  : result A * world :=
  match raises E c with
  | Some e => (Raise e, w)
  | None => rest
  end.

(** The [for pdf_file in ...] loop.  The loader and the chain are
    called outside the [try]; inside it a [JSONDecodeError] is caught,
    reported and the loop goes on, any other exception is not caught. *)
Fixpoint process_files (input_dir : string) (pdf_files : list string)
         (all_resumes : list Resume) (w : world)
  : result (list Resume) * world :=
  match pdf_files with
  | [] => (Ok all_resumes, w)
  | pdf_file :: rest =>
      let progress := ("Processing " ++ pdf_file ++ "...")%string in
      guarded (Stdout progress) w
        (let w := print progress w in
         guarded (Extract input_dir pdf_file) w
           (let raw_output := raw_output_of E input_dir pdf_file in
            guarded (Loads raw_output) w
              match json_loads E raw_output with
              | Some parsed_core =>
                  match structure_resume (stem pdf_file) parsed_core (clock w) with
                  | Ok structured_resume =>
                      process_files input_dir rest
                        (all_resumes ++ [structured_resume]) (tick2 w)
                  | Raise e => (Raise e, w)
                  end
              | None =>
                  let failure := ("Failed to parse " ++ pdf_file ++ ". Raw output:"
                                  ++ nl ++ raw_output)%string in
                  guarded (Stdout failure) w
                    (process_files input_dir rest all_resumes (print failure w))
              end))
  end.

Definition convert_pdfs_to_json (input_dir output_json_path : string) (w : world)
  : result (list Resume) * world :=
  guarded (Glob input_dir) w
    match process_files input_dir (glob_pdf E input_dir) [] w with
    | (Ok all_resumes, w) =>
        let output_path := path_str E output_json_path in
        guarded (OpenFile output_path) w
          match raises E (DumpFile output_path all_resumes) with
          | Some e => (Raise e, lose_file output_path w)
          | None =>
              let w := write_json output_path all_resumes w in
              let summary := (nl ++ "Processed "
                              ++ PyStr.of_nat (List.length all_resumes)
                              ++ " resumes. Combined JSON saved at "
                              ++ output_path)%string in
              guarded (Stdout summary) w (Ok all_resumes, print summary w)
          end
    | (Raise e, w) => (Raise e, w)
    end.

End Ingestion.

(** ** json_resume_query.py *)

(** A retrieved chunk.  Its metadata is the dict the indexer attached:
    the record's [name], [unique_id] and [designation], read here as
    strings. *)
Record Document : Type := {
  page_content : string;
  metadata : list (string * string)
}.

(** The splitter's parameters, as the script fixes them. *)
Definition chunk_size : Z := 700.
Definition chunk_overlap : Z := 50.

(** [doc.metadata.get("unique_id", "unknown")]. *)
Definition uid_of (doc : Document) : string :=
  dict_get (metadata doc) "unique_id" "unknown".

(** The lines put in front of a chunk's text. *)
Definition chunk_header (doc : Document) : string :=
  "Candidate Name: " ++ dict_get (metadata doc) "name" "N/A" ++ nl
  ++ "Designation: " ++ dict_get (metadata doc) "designation" "N/A" ++ nl
  ++ "Resume ID: " ++ uid_of doc ++ nl
  ++ "Resume Content:" ++ nl.

(** The f-string appended for one chunk. *)
Definition format_chunk (doc : Document) : string :=
  chunk_header doc ++ page_content doc.

(** [d[uid].append(part)] on a [defaultdict(list)]: a known key gets
    the part at the end of its list, a new key is added last. *)
Fixpoint dd_append (uid part : string) (d : list (string * list string))
  : list (string * list string) :=
  match d with
  | [] => [(uid, [part])]
  | (k, parts) :: r =>
      if k =? uid then (k, parts ++ [part]) :: r
      else (k, parts) :: dd_append uid part r
  end.

(** The merge loop over [query_docs]. *)
Definition merged_context (query_docs : list Document)
  : list (string * list string) :=
  fold_left (fun d doc => dd_append (uid_of doc) (format_chunk doc) d)
            query_docs [].

Definition block_separator : string := nl ++ nl ++ "---" ++ nl ++ nl.

Definition context_text (query_docs : list Document) : string :=
  PyStr.join block_separator
    (map (fun kv => PyStr.join (nl ++ nl) (snd kv)) (merged_context query_docs)).





(** * Vocabulary of the statements *)

(** ** Skills and keywords *)

(** The tokens one skill string contributes: its pieces, stripped, the
    empty ones left out. *)
Definition tokens_of (skill : string) : list string :=
  filter PyStr.truthy (map PyStr.strip (PyStr.re_split skill)).

Definition tokens (skills_list : list string) : list string :=
  flat_map tokens_of skills_list.

(** Equality up to case. *)
Definition eq_nocase (a b : string) : Prop := PyStr.lower a = PyStr.lower b.

(** No two entries are equal up to case. *)
Definition dedup_nocase (l : list string) : Prop := NoDup (map PyStr.lower l).

(** All entries differ, as a test. *)
Fixpoint distinctb (l : list string) : bool :=
  match l with
  | [] => true
  | x :: r => negb (existsb (String.eqb x) r) && distinctb r
  end.

(** A field of a decoded object, with its default. *)
Definition field (v : json) (k : string) (default : json) : json :=
  match v with
  | JObj d => dict_get d k default
  | _ => default
  end.

Definition iter_items (v : json) : list json :=
  match py_iter v with
  | Ok items => items
  | Raise _ => []
  end.

Definition stripped (v : json) : list string :=
  match v with
  | JStr s => [PyStr.strip s]
  | _ => []
  end.

(** The technology tags of all projects, stripped, in document order. *)
Definition technology_tags (parsed_core : json) : list string :=
  flat_map (fun proj => flat_map stripped (iter_items (field proj "technologies" (JArr []))))
           (iter_items (field parsed_core "projects" (JArr []))).

(** The name a certification contributes: a record its stripped,
    non-empty ["name"]; a plain string its stripped text, empty or not. *)
Definition certification_name (cert : json) : list string :=
  match cert with
  | JObj d =>
      match dict_get d "name" (JStr "") with
      | JStr s => if PyStr.truthy (PyStr.strip s) then [PyStr.strip s] else []
      | _ => []
      end
  | JStr s => [PyStr.strip s]
  | _ => []
  end.

Definition certification_names (parsed_core : json) : list string :=
  flat_map certification_name (iter_items (field parsed_core "certifications" (JArr []))).

(** ** The shape the extraction prompt asks for *)

Definition is_str (v : json) : bool :=
  match v with JStr _ => true | _ => false end.

Definition str_list (v : json) : bool :=
  match v with JArr items => forallb is_str items | _ => false end.

Definition project_shaped (proj : json) : bool :=
  match proj with
  | JObj d => str_list (dict_get d "technologies" (JArr []))
  | _ => false
  end.

Definition certification_shaped (cert : json) : bool :=
  match cert with
  | JObj d => is_str (dict_get d "name" (JStr ""))
  | _ => true
  end.

Definition list_of (shaped : json -> bool) (v : json) : bool :=
  match v with JArr items => forallb shaped items | _ => false end.

(** An object whose [skills] is a list of strings, whose [projects] are
    objects with a list of strings as [technologies], and whose
    [certifications] is a list in which every object has a string
    [name]; each of the three may be missing. *)
Definition schema_shaped (parsed_core : json) : bool :=
  match parsed_core with
  | JObj d =>
      str_list (dict_get d "skills" (JArr []))
      && list_of project_shaped (dict_get d "projects" (JArr []))
      && list_of certification_shaped (dict_get d "certifications" (JArr []))
  | _ => false
  end.

(** ** Batches *)

(** The extraction of this file decodes. *)
Definition parses (E : Env) (input_dir pdf_file : string) : bool :=
  match json_loads E (raw_output_of E input_dir pdf_file) with
  | Some _ => true
  | None => false
  end.

(** The [try] body of this file raises nothing but, possibly,
    [JSONDecodeError]. *)
Definition structures (E : Env) (input_dir pdf_file : string) : bool :=
  match json_loads E (raw_output_of E input_dir pdf_file) with
  | Some parsed_core =>
      match structure_resume E (stem pdf_file) parsed_core 0 with
      | Ok _ => true
      | Raise _ => false
      end
  | None => true
  end.

(** The line printed when the extraction of a file does not decode. *)
Definition failure_line (E : Env) (input_dir pdf_file : string) : string :=
  "Failed to parse " ++ pdf_file ++ ". Raw output:" ++ nl
  ++ raw_output_of E input_dir pdf_file.

(** What the loop prints for one file. *)
Definition progress_lines (E : Env) (input_dir pdf_file : string) : list string :=
  ("Processing " ++ pdf_file ++ "...")%string
    :: (if parses E input_dir pdf_file then []
        else [failure_line E input_dir pdf_file]).

(** The record [r] is what the [try] body made of the file. *)
Definition produced (E : Env) (input_dir pdf_file : string) (r : Resume) : Prop :=
  exists parsed_core now,
    json_loads E (raw_output_of E input_dir pdf_file) = Some parsed_core
    /\ structure_resume E (stem pdf_file) parsed_core now = Ok r.

Definition initial_world : world :=
  {| stdout := []; clock := 0; written := [] |}.

(** ** Evidence blocks *)

(** The formatted chunks whose grouping key is [k], in retrieval order. *)
Definition block_of (query_docs : list Document) (k : string) : list string :=
  map format_chunk (filter (fun doc => uid_of doc =? k) query_docs).

(** One block per key, keys in the order they are first seen. *)
Definition grouped (query_docs : list Document) : list (string * list string) :=
  map (fun k => (k, block_of query_docs k))
      (first_seen (map uid_of query_docs)).



(** * Sample data *)

(** A decoder that knows two documents; both are read as [json.loads]
    reads them, every other text used below is no JSON at all. *)
Definition sample_loads (text : string) : option json :=
  if text =? "{}" then Some (JObj [])
  else if text =? "[]" then Some (JArr [])
  else None.

(** [json.dumps(v, indent=2)] on the two documents above. *)
Definition sample_dumps (v : json) : string :=
  match v with
  | JArr [] => "[]"
  | _ => "{}"
  end.

(** Four directories: three files of which the second does not decode;
    two files scanned in an order that is not lexical; the two names
    that share a stem; a file that decodes to a list. *)
Definition sample_listdir (input_dir : string) : list string :=
  if input_dir =? "three" then ["a.pdf"; "b.pdf"; "c.pdf"; "notes.txt"]
  else if input_dir =? "unsorted" then ["b.pdf"; "a.pdf"]
  else if input_dir =? "dotted" then [".pdf"; ".pdf.pdf"]
  else if input_dir =? "listed" then ["a.pdf"; "b.pdf"]
  else [].

Definition sample_raw_output (input_dir pdf_file : string) : string :=
  if (input_dir =? "three") && (pdf_file =? "b.pdf") then "not json"
  else if (input_dir =? "listed") && (pdf_file =? "a.pdf") then "not json"
  else if (input_dir =? "listed") && (pdf_file =? "b.pdf") then "[]"
  else "{}".

Definition sample_env : Env :=
  {| raises := fun _ => None;
     set_iter := first_seen;
     listdir := sample_listdir;
     raw_output_of := sample_raw_output;
     json_loads := sample_loads;
     json_dumps := sample_dumps;
     utcnow := fun n => ("2024-06-20T10:00:0" ++ PyStr.of_nat n)%string;
     path_str := fun p => p;
     answer_chain := fun query _ => if query =? "Django" then "{}" else "No match." |}.

(** Skills [["Go"]] and one project whose technologies are [["go"]]. *)
Definition go_document : json :=
  JObj [("skills", JArr [JStr "Go"]);
        ("projects", JArr [JObj [("name", JStr "svc");
                                 ("technologies", JArr [JStr "go"])]])].

(** The example of the specification: skills [["Go"]], one project with
    technologies [["Go"; "gRPC"]]. *)
Definition grpc_document : json :=
  JObj [("skills", JArr [JStr "Go"]);
        ("projects", JArr [JObj [("technologies", JArr [JStr "Go"; JStr "gRPC"])]])].

(** A certification that is only white space. *)
Definition blank_certification_document : json :=
  JObj [("skills", JArr [JStr "Go"]); ("certifications", JArr [JStr "  "])].

Definition python_skills : list string := ["Python (Django, Flask)"; "python"].

Definition sample_chunk (uid who title text : string) : Document :=
  {| page_content := text;
     metadata := [("name", who); ("unique_id", uid); ("designation", title)] |}.

Definition sample_docs : list Document :=
  [sample_chunk "r1" "A" "Engineer" "Built APIs with Django.";
   sample_chunk "r2" "B" "Analyst" "Dashboards.";
   sample_chunk "r1" "A" "Engineer" "Django REST framework."].

(** * The rest of the scripts *)

(** ** The dict behind a record *)

(** [structured_resume] as the dict that [json.dump] receives: the keys
    of the literal, in its order. *)
Definition to_json (r : Resume) : json :=
  JObj
    [("_id", JObj [("$oid", JStr (id_oid r))]);
     ("name", name r);
     ("email", email r);
     ("secondary_email", JStr (secondary_email r));
     ("primary_phone", primary_phone r);
     ("secondary_phone", JStr (secondary_phone r));
     ("cv_directory_link", JStr (cv_directory_link r));
     ("unique_id", JStr (unique_id r));
     ("designation", designation r);
     ("location", location r);
     ("personal_details",
      JObj [("date_of_birth", JStr (date_of_birth (personal_details r)));
            ("age", JInt (age (personal_details r)));
            ("gender", JStr (gender (personal_details r)))]);
     ("social_profiles",
      JObj [("github", github (social_profiles r));
            ("linkedin", linkedin (social_profiles r));
            ("twitter", JStr (twitter (social_profiles r)));
            ("leetcode", JStr (leetcode (social_profiles r)));
            ("others", JArr (others (social_profiles r)))]);
     ("education", education r);
     ("work_experience", work_experience r);
     ("total_experience", JStr (total_experience r));
     ("technical_skills", JArr (map JStr (technical_skills r)));
     ("soft_skills", JArr (soft_skills r));
     ("languages", languages r);
     ("certifications", certifications r);
     ("projects", projects r);
     ("keywords", JArr (map JStr (keywords r)));
     ("batch_id",
      JObj [("$binary", JObj [("base64", JStr (base64 (batch_id r)));
                              ("subType", JStr (subType (batch_id r)))])]);
     ("job_id", JObj [("$oid", JStr (job_id r))]);
     ("updated_at", JObj [("$date", JStr (updated_at r))]);
     ("created_at", JObj [("$date", JStr (created_at r))]);
     ("status", JStr (status r));
     ("compatibility_analysis",
      JObj [("overall_score", JInt (overall_score (compatibility_analysis r)));
            ("analysis",
             JObj [("strengths",
                    JArr (strengths (analysis (compatibility_analysis r))));
                   ("gaps", JArr (gaps (analysis (compatibility_analysis r))));
                   ("matching_points",
                    JArr (matching_points (analysis (compatibility_analysis r))));
                   ("improvement_areas",
                    JArr (improvement_areas (analysis (compatibility_analysis r))))]);
            ("detailed_scoring",
             JObj [("skills_match",
                    JInt (skills_match (detailed_scoring (compatibility_analysis r))));
                   ("experience_relevance",
                    JInt (experience_relevance
                            (detailed_scoring (compatibility_analysis r))));
                   ("education_fit",
                    JInt (education_fit (detailed_scoring (compatibility_analysis r))));
                   ("overall_potential",
                    JInt (overall_potential
                            (detailed_scoring (compatibility_analysis r))))])])].

(** ** json_resume_query.py, step 3: the documents to index *)

(** The items of an iterable as strings; the first item that is no str
    is a [TypeError], as in [str.join]. *)
Fixpoint all_strs (items : list json) : result (list string) :=
  match items with
  | [] => Ok []
  | JStr s :: rest => let* strs := all_strs rest in Ok (s :: strs)
  | _ :: _ => Raise TypeError
  end.

(** [sep.join(v)]. *)
Definition py_join (sep : string) (v : json) : result string :=
  let* items := py_iter v in
  let* strs := all_strs items in
  Ok (PyStr.join sep strs).

(** [", ".join(resume.get("keywords", [])) or "None"]. *)
Definition keywords_line (resume : json) : result string :=
  let* kw := py_get resume "keywords" (JArr []) in
  let* joined := py_join ", " kw in
  Ok (if PyStr.truthy joined then joined else "None").

(** A document before it is split: its text and the metadata dict, whose
    values are whatever the record holds. *)
Record IndexDocument : Type := {
  doc_content : string;
  doc_metadata : list (string * json)
}.

(** The body of the loop over [resumes_list]. *)
Definition make_document (E : Env) (resume : json) : result IndexDocument :=
  let* keywords := keywords_line resume in
  let text := ("Keywords: " ++ keywords ++ nl ++ nl ++ json_dumps E resume)%string in
  let* v_name := py_get resume "name" (JStr "") in
  let* v_unique_id := py_get resume "unique_id" (JStr "") in
  let* v_designation := py_get resume "designation" (JStr "") in
  Ok {| doc_content := text;
        doc_metadata := [("name", v_name);
                         ("unique_id", v_unique_id);
                         ("designation", v_designation)] |}.

Fixpoint documents_loop (E : Env) (resumes : list json) (documents : list IndexDocument)
  : result (list IndexDocument) :=
  match resumes with
  | [] => Ok documents
  | resume :: rest =>
      let* doc := make_document E resume in
      documents_loop E rest (documents ++ [doc])
  end.

(** Step 3 as a whole, on the decoded content of the collection file. *)
Definition build_documents (E : Env) (resumes_list : json)
  : result (list IndexDocument) :=
  let* resumes := py_iter resumes_list in
  documents_loop E resumes [].

(** ** More vocabulary *)

(** [v] can be iterated and every item passes [ok]. *)
Definition iterates (ok : json -> bool) (v : json) : bool :=
  match py_iter v with
  | Ok items => forallb ok items
  | Raise _ => false
  end.

Definition project_processable (proj : json) : bool :=
  match proj with
  | JObj d => iterates is_str (dict_get d "technologies" (JArr []))
  | _ => false
  end.

(** The documents on which the [try] body raises nothing: an object
    whose [skills] iterates over strings, whose [projects] iterates over
    objects with [technologies] iterating over strings, and whose
    [certifications] iterates over values of which every object has a
    string [name]. *)
Definition processable (parsed_core : json) : bool :=
  match parsed_core with
  | JObj d =>
      iterates is_str (dict_get d "skills" (JArr []))
      && iterates project_processable (dict_get d "projects" (JArr []))
      && iterates certification_shaped (dict_get d "certifications" (JArr []))
  | _ => false
  end.

(** The documents from which step 3 can build an index document. *)
Definition indexable (resume : json) : bool :=
  match resume with
  | JObj d => iterates is_str (dict_get d "keywords" (JArr []))
  | _ => false
  end.

(** The last line the batch prints. *)
Definition summary_line (E : Env) (output_json_path : string) (n : nat) : string :=
  nl ++ "Processed " ++ PyStr.of_nat n
     ++ " resumes. Combined JSON saved at " ++ path_str E output_json_path.

(** A token as [normalize_skills] leaves it. *)
Definition clean_token (x : string) : Prop :=
  x <> EmptyString
  /\ (forall c r, x = String c r -> PyStr.isspace c = false)
  /\ (forall c, PyStr.last_char x = Some c -> PyStr.isspace c = false)
  /\ (forall c, PyStr.char_in c x -> PyStr.is_delim c = false).

(** The record made of the sample document with skills Go and
    technologies Go, gRPC. *)
Definition sample_resume : Resume :=
  match structure_resume sample_env "cv" grpc_document 0 with
  | Ok r => r
  | Raise _ =>
      {| id_oid := ""; name := JNull; email := JNull; secondary_email := "";
         primary_phone := JNull; secondary_phone := ""; cv_directory_link := "";
         unique_id := ""; designation := JNull; location := JNull;
         personal_details := {| date_of_birth := ""; age := 0; gender := "" |};
         social_profiles := {| github := JNull; linkedin := JNull; twitter := "";
                               leetcode := ""; others := [] |};
         education := JNull; work_experience := JNull; total_experience := "";
         technical_skills := []; soft_skills := []; languages := JNull;
         certifications := JNull; projects := JNull; keywords := [];
         batch_id := {| base64 := ""; subType := "" |}; job_id := "";
         updated_at := ""; created_at := ""; status := "";
         compatibility_analysis := zero_analysis |}
  end.

(** A world in which the output path and another path already hold
    collections. *)
Definition used_world : world :=
  {| stdout := []; clock := 0;
     written := [("out.json", [sample_resume; sample_resume]);
                 ("other.json", [sample_resume])] |}.


(** * Properties *)

(** ** Strings *)

Section StringFacts.
Import PyStr.

Lemma truthy_true (s : string) : truthy s = true <-> s <> EmptyString.
Proof. destruct s; simpl; split; congruence. Qed.

Lemma rstrip_head (s : string) :
  forall c r, rstrip s = String c r -> exists r', s = String c r'.
Proof.
  destruct s as [|a s]; simpl; intros c r H; [discriminate|].
  destruct (rstrip s).
  - destruct (isspace a); [discriminate|]. inversion H; subst; eauto.
  - inversion H; subst; eauto.
Qed.

Lemma lstrip_head (s : string) :
  forall c r, lstrip s = String c r -> isspace c = false.
Proof.
  induction s as [|a s IH]; simpl; intros c r H; [discriminate|].
  destruct (isspace a) eqn:Ha; [eauto|].
  inversion H; subst; assumption.
Qed.

(** A stripped string does not begin with white space. *)
Lemma strip_head (s : string) c r :
  strip s = String c r -> isspace c = false.
Proof.
  unfold strip; intros H.
  destruct (rstrip_head _ _ _ H) as [r' Hr'].
  eapply lstrip_head; eassumption.
Qed.

Lemma rstrip_last (s : string) c :
  last_char (rstrip s) = Some c -> isspace c = false.
Proof.
  induction s as [|a s IH]; simpl; [discriminate|].
  destruct (rstrip s) as [|b t] eqn:Hr.
  - destruct (isspace a) eqn:Ha; simpl; [discriminate|].
    intros H; inversion H; subst; assumption.
  - simpl. exact IH.
Qed.

(** A stripped string does not end with white space. *)
Lemma strip_last (s : string) c :
  last_char (strip s) = Some c -> isspace c = false.
Proof. apply rstrip_last. Qed.

Lemma lstrip_chars (s : string) c : char_in c (lstrip s) -> char_in c s.
Proof.
  unfold char_in; induction s as [|a s IH]; simpl; [tauto|].
  destruct (isspace a); simpl; auto.
Qed.

Lemma rstrip_chars (s : string) c : char_in c (rstrip s) -> char_in c s.
Proof.
  unfold char_in; induction s as [|a s IH]; simpl; [tauto|].
  destruct (rstrip s) as [|b t].
  - destruct (isspace a); simpl; tauto.
  - simpl in *. tauto.
Qed.

Lemma strip_chars (s : string) c : char_in c (strip s) -> char_in c s.
Proof. intros H; apply lstrip_chars, rstrip_chars, H. Qed.

Lemma re_split_nonnil (s : string) : re_split s <> [].
Proof.
  induction s as [|a s IH]; simpl; [discriminate|].
  destruct (is_delim a); [discriminate|].
  destruct (re_split s); [contradiction|discriminate].
Qed.

(** No piece of the split holds a delimiter. *)
Lemma re_split_no_delim (s : string) :
  forall p c, In p (re_split s) -> char_in c p -> is_delim c = false.
Proof.
  unfold char_in; induction s as [|a s IH]; simpl; intros p c Hp Hc.
  - destruct Hp as [<-|[]]; destruct Hc.
  - destruct (is_delim a) eqn:Ha.
    + destruct Hp as [<-|Hp]; [destruct Hc|eauto].
    + destruct (re_split s) as [|q qs] eqn:Hs.
      * destruct Hp as [<-|[]]. simpl in Hc. destruct Hc as [<-|[]]; assumption.
      * destruct Hp as [<-|Hp].
        -- simpl in Hc. destruct Hc as [<-|Hc]; [assumption|].
           apply (IH q c); simpl; auto.
        -- apply (IH p c); simpl; auto.
Qed.

(** The pieces, put back together without the delimiters, are the
    characters of the string that are no delimiters. *)
Lemma re_split_concat (s : string) :
  list_ascii_of_string (String.concat EmptyString (re_split s))
  = filter (fun c => negb (is_delim c)) (list_ascii_of_string s).
Proof.
  induction s as [|a s IH]; simpl; [reflexivity|].
  destruct (is_delim a) eqn:Ha; simpl.
  - pose proof (re_split_nonnil s) as Hn.
    destruct (re_split s) as [|q qs]; [contradiction|]. exact IH.
  - pose proof (re_split_nonnil s) as Hn.
    destruct (re_split s) as [|q qs]; [contradiction|].
    simpl in *. destruct qs; simpl in *; rewrite <- IH; reflexivity.
Qed.

(** Sorting. *)

Lemma insert_lower_perm x l : Permutation (x :: l) (insert_lower x l).
Proof.
  induction l as [|y r IH]; simpl; [apply Permutation_refl|].
  destruct (leb_lower x y); [apply Permutation_refl|].
  eapply perm_trans; [apply perm_swap|]. apply perm_skip, IH.
Qed.

Lemma sorted_lower_perm l : Permutation l (sorted_lower l).
Proof.
  induction l as [|x r IH]; simpl; [constructor|].
  eapply perm_trans; [apply perm_skip, IH|]. apply insert_lower_perm.
Qed.

Lemma sorted_lower_In l x : In x (sorted_lower l) <-> In x l.
Proof.
  split; intros H.
  - eapply Permutation_in; [apply Permutation_sym, sorted_lower_perm|exact H].
  - eapply Permutation_in; [apply sorted_lower_perm|exact H].
Qed.

Lemma sorted_lower_NoDup l : NoDup l -> NoDup (sorted_lower l).
Proof. intros H. eapply Permutation_NoDup; [apply sorted_lower_perm|exact H]. Qed.

Lemma sorted_lower_length l : List.length (sorted_lower l) = List.length l.
Proof. symmetry. apply Permutation_length, sorted_lower_perm. Qed.

Lemma le_lower_total a b : le_lower a b \/ le_lower b a.
Proof. apply String.leb_total. Qed.

Lemma insert_lower_hd x l a :
  HdRel le_lower a l -> le_lower a x -> HdRel le_lower a (insert_lower x l).
Proof.
  destruct l as [|y r]; simpl; intros Hl Hx; [constructor; assumption|].
  destruct (leb_lower x y); constructor; [assumption|].
  inversion Hl; assumption.
Qed.

Lemma insert_lower_sorted x l :
  Sorted le_lower l -> Sorted le_lower (insert_lower x l).
Proof.
  induction l as [|y r IH]; simpl; intros Hs.
  - constructor; constructor.
  - destruct (leb_lower x y) eqn:Hxy.
    + constructor; [assumption|constructor; exact Hxy].
    + inversion Hs; subst. constructor; [auto|].
      apply insert_lower_hd; [assumption|].
      destruct (le_lower_total x y) as [H|H]; [|exact H].
      unfold le_lower in H. unfold leb_lower in Hxy. congruence.
Qed.

(** The result of [sorted(_, key=str.lower)] is in case-insensitive order. *)
Lemma sorted_lower_sorted l : Sorted le_lower (sorted_lower l).
Proof.
  induction l as [|x r IH]; simpl; [constructor|].
  apply insert_lower_sorted, IH.
Qed.

End StringFacts.

(** ** First occurrences *)

Section FirstSeen.

Lemma first_seen_In (l : list string) x : In x (first_seen l) <-> In x l.
Proof.
  induction l as [|a r IH]; simpl; [tauto|].
  rewrite filter_In, IH, negb_true_iff, String.eqb_neq.
  destruct (String.eqb_spec x a) as [->|Hne]; [tauto|].
  split; [tauto|]. intros [->|H]; [contradiction|auto].
Qed.

Lemma first_seen_NoDup (l : list string) : NoDup (first_seen l).
Proof.
  induction l as [|a r IH]; simpl; constructor.
  - rewrite filter_In, negb_true_iff, String.eqb_neq. tauto.
  - apply NoDup_filter, IH.
Qed.

Lemma first_seen_snoc (l : list string) x :
  first_seen (l ++ [x])
  = if existsb (String.eqb x) l then first_seen l else first_seen l ++ [x].
Proof.
  induction l as [|a r IH]; simpl; [reflexivity|].
  rewrite IH. rewrite String.eqb_sym.
  destruct (String.eqb_spec a x) as [->|Hne]; simpl.
  - destruct (existsb (String.eqb x) r); [reflexivity|].
    rewrite filter_app; simpl. rewrite String.eqb_refl; simpl.
    rewrite app_nil_r; reflexivity.
  - destruct (existsb (String.eqb x) r); [reflexivity|].
    rewrite filter_app; simpl.
    destruct (String.eqb_spec x a) as [->|_]; [contradiction|reflexivity].
Qed.

(** Iterating a set in the order of first insertion meets [set_iter_spec]. *)
Lemma sample_env_lawful : set_iter_spec sample_env.
Proof.
  intros h; split; [apply first_seen_NoDup|intros x; apply first_seen_In].
Qed.

Lemma NoDup_distinctb (l : list string) : NoDup l -> distinctb l = true.
Proof.
  induction 1 as [|x r Hx _ IH]; simpl; [reflexivity|].
  rewrite IH, andb_true_r, negb_true_iff.
  destruct (existsb (String.eqb x) r) eqn:Hex; [|reflexivity].
  apply existsb_exists in Hex. destruct Hex as [y [Hy Hxy]].
  apply String.eqb_eq in Hxy; subst. contradiction.
Qed.

End FirstSeen.

(** ** normalize_skills *)

Section NormalizeSkills.
Import PyStr.

Variable E : Env.
Hypothesis E_lawful : set_iter_spec E.

Lemma append_cleaned_spec (parts : list string) :
  forall normalized,
    append_cleaned parts normalized
    = normalized ++ filter truthy (map strip parts).
Proof.
  induction parts as [|p rest IH]; simpl; intros normalized.
  - rewrite app_nil_r; reflexivity.
  - destruct (truthy (strip p)); rewrite IH; [|reflexivity].
    rewrite <- app_assoc; reflexivity.
Qed.

(** The outer loop succeeds exactly on lists of strings, and then
    appends the tokens of each string in turn. *)
Lemma normalize_loop_strings (skills_list : list string) :
  forall normalized,
    normalize_loop (map JStr skills_list) normalized
    = Ok (normalized ++ tokens skills_list).
Proof.
  induction skills_list as [|s rest IH]; simpl; intros normalized.
  - rewrite app_nil_r; reflexivity.
  - rewrite IH, append_cleaned_spec, <- app_assoc. reflexivity.
Qed.

Lemma normalize_loop_Ok (items : list json) :
  forall normalized out,
    normalize_loop items normalized = Ok out ->
    exists skills_list,
      items = map JStr skills_list /\ out = normalized ++ tokens skills_list.
Proof.
  induction items as [|v rest IH]; simpl; intros normalized out H.
  - exists []; simpl. rewrite app_nil_r. split; congruence.
  - destruct v; simpl in H; try discriminate.
    destruct (IH _ _ H) as [ss [-> ->]].
    exists (s :: ss); simpl. rewrite append_cleaned_spec, <- app_assoc.
    split; reflexivity.
Qed.

Lemma normalize_skills_strings (skills_list : list string) :
  normalize_skills E (JArr (map JStr skills_list))
  = Ok (sorted_lower (set_iter E (tokens skills_list))).
Proof.
  unfold normalize_skills; simpl.
  rewrite normalize_loop_strings; reflexivity.
Qed.

(** Whatever is passed for [skills_list], a result is the sorted
    iteration of the set of tokens of the strings it yields. *)
Lemma normalize_skills_Ok (skills_list : json) out :
  normalize_skills E skills_list = Ok out ->
  exists strs,
    py_iter skills_list = Ok (map JStr strs)
    /\ out = sorted_lower (set_iter E (tokens strs)).
Proof.
  unfold normalize_skills; intros H.
  destruct (py_iter skills_list) as [items|e] eqn:Hit; simpl in H; [|discriminate].
  destruct (normalize_loop items []) as [n|e] eqn:Hl; simpl in H; [|discriminate].
  destruct (normalize_loop_Ok _ _ _ Hl) as [ss [-> ->]].
  exists ss; split; [reflexivity|].
  rewrite app_nil_l in H. inversion H; reflexivity.
Qed.

Lemma tokens_of_In (skill : string) x :
  In x (tokens_of skill) <->
  exists piece, In piece (re_split skill) /\ x = strip piece /\ x <> EmptyString.
Proof.
  unfold tokens_of. rewrite filter_In, in_map_iff, truthy_true.
  split.
  - intros [[p [Hp Hin]] Hne]. exists p; auto.
  - intros [p [Hin [Hp Hne]]]. split; [exists p; auto|assumption].
Qed.

Lemma tokens_In (skills_list : list string) x :
  In x (tokens skills_list) <->
  exists skill piece,
    In skill skills_list /\ In piece (re_split skill)
    /\ x = strip piece /\ x <> EmptyString.
Proof.
  unfold tokens. rewrite in_flat_map. split.
  - intros [s [Hs Hx]]. apply tokens_of_In in Hx.
    destruct Hx as [p Hp]. exists s, p; tauto.
  - intros [s [p [Hs Hp]]]. exists s; split; [assumption|].
    apply tokens_of_In. exists p; assumption.
Qed.

(** A token is not empty, has no white space at either end and holds
    no delimiter. *)
Lemma tokens_clean (skills_list : list string) x :
  In x (tokens skills_list) ->
  x <> EmptyString
  /\ (forall c r, x = String c r -> isspace c = false)
  /\ (forall c, last_char x = Some c -> isspace c = false)
  /\ (forall c, char_in c x -> is_delim c = false).
Proof.
  intros H. apply tokens_In in H.
  destruct H as [s [p [Hs [Hp [-> Hne]]]]].
  split; [assumption|]. split; [|split].
  - intros c r Hc. eapply strip_head; eassumption.
  - intros c. apply strip_last.
  - intros c Hc. eapply re_split_no_delim; [eassumption|].
    apply strip_chars; assumption.
Qed.

Lemma sorted_set_In (h : list string) x :
  In x (sorted_lower (set_iter E h)) <-> In x h.
Proof. rewrite sorted_lower_In. apply E_lawful. Qed.

Lemma sorted_set_NoDup (h : list string) : NoDup (sorted_lower (set_iter E h)).
Proof. apply sorted_lower_NoDup, E_lawful. Qed.

(** The four distinct tokens of the sample input come out as Django,
    Flask and the two spellings of Python, the latter in the order the
    set happens to yield them. *)
Lemma normalize_python_skills :
  let out := sorted_lower (set_iter E (tokens python_skills)) in
  out = ["Django"; "Flask"; "Python"; "python"]
  \/ out = ["Django"; "Flask"; "python"; "Python"].
Proof.
  intros out; subst out.
  change (tokens python_skills) with ["Python"; "Django"; "Flask"; "python"].
  destruct (E_lawful ["Python"; "Django"; "Flask"; "python"]) as [Hnd Hin].
  set (l := set_iter E _) in *.
  assert (Hlen : List.length l = 4%nat).
  { apply Permutation_length with (l' := ["Python"; "Django"; "Flask"; "python"]).
    apply NoDup_Permutation; [assumption| |assumption].
    repeat constructor; simpl; intuition discriminate. }
  apply NoDup_distinctb in Hnd.
  destruct l as [|a [|b [|c [|d [|]]]]]; simpl in Hlen; try discriminate.
  assert (Ha : In a ["Python"; "Django"; "Flask"; "python"]) by (apply Hin; simpl; auto).
  assert (Hb : In b ["Python"; "Django"; "Flask"; "python"]) by (apply Hin; simpl; auto).
  assert (Hc : In c ["Python"; "Django"; "Flask"; "python"]) by (apply Hin; simpl; auto).
  assert (Hd : In d ["Python"; "Django"; "Flask"; "python"]) by (apply Hin; simpl; tauto).
  clear Hin Hlen. simpl in Ha, Hb, Hc, Hd.
  destruct Ha as [<-|[<-|[<-|[<-|[]]]]];
    destruct Hb as [<-|[<-|[<-|[<-|[]]]]];
    try (vm_compute in Hnd; discriminate Hnd);
    destruct Hc as [<-|[<-|[<-|[<-|[]]]]];
    try (vm_compute in Hnd; discriminate Hnd);
    destruct Hd as [<-|[<-|[<-|[<-|[]]]]];
    try (vm_compute in Hnd; discriminate Hnd);
    clear Hnd;
    first [left; vm_compute; reflexivity | right; vm_compute; reflexivity].
Qed.

End NormalizeSkills.

(** ** Keywords and the structured record *)

Section StructureResume.
Import PyStr.

Variable E : Env.

Lemma add_technologies_Ok (techs : list json) :
  forall kw kw',
    add_technologies techs kw = Ok kw' ->
    kw' = kw ++ flat_map stripped techs.
Proof.
  induction techs as [|t rest IH]; simpl; intros kw kw' H.
  - rewrite app_nil_r; congruence.
  - destruct t; simpl in H; try discriminate.
    rewrite (IH _ _ H), <- app_assoc; reflexivity.
Qed.

Lemma add_projects_Ok (projs : list json) :
  forall kw kw',
    add_projects projs kw = Ok kw' ->
    kw' = kw ++ flat_map
                  (fun proj => flat_map stripped
                                 (iter_items (field proj "technologies" (JArr []))))
                  projs.
Proof.
  induction projs as [|p rest IH]; simpl; intros kw kw' H.
  - rewrite app_nil_r; congruence.
  - destruct p; simpl in H; try discriminate.
    unfold iter_items at 1; cbn [field].
    destruct (py_iter (dict_get fields "technologies" (JArr []))) as [techs|e];
      simpl in H; [|discriminate].
    destruct (add_technologies techs kw) as [kw1|e] eqn:Ht; simpl in H; [|discriminate].
    rewrite (IH _ _ H), (add_technologies_Ok _ _ _ Ht), <- app_assoc; reflexivity.
Qed.

Lemma add_certification_Ok (cert : json) kw kw' :
  add_certification cert kw = Ok kw' -> kw' = kw ++ certification_name cert.
Proof.
  destruct cert; simpl; intros H;
    try (rewrite app_nil_r; congruence); try congruence.
  destruct (dict_get fields "name" (JStr EmptyString)); simpl in H; try discriminate.
  destruct (truthy (strip s)); [|rewrite app_nil_r]; congruence.
Qed.

Lemma add_certifications_Ok (certs : list json) :
  forall kw kw',
    add_certifications certs kw = Ok kw' ->
    kw' = kw ++ flat_map certification_name certs.
Proof.
  induction certs as [|c rest IH]; simpl; intros kw kw' H.
  - rewrite app_nil_r; congruence.
  - destruct (add_certification c kw) as [kw1|e] eqn:Hc; simpl in H; [|discriminate].
    rewrite (IH _ _ H), (add_certification_Ok _ _ _ Hc), <- app_assoc; reflexivity.
Qed.

(** The set of keywords receives the skills, then the technology tags,
    then the certification names. *)
Lemma gather_keywords_Ok (parsed_core : json) (skills kws : list string) :
  gather_keywords parsed_core skills = Ok kws ->
  kws = skills ++ technology_tags parsed_core ++ certification_names parsed_core.
Proof.
  unfold gather_keywords, technology_tags, certification_names, iter_items.
  destruct parsed_core; simpl; try discriminate.
  destruct (py_iter (dict_get fields "projects" (JArr []))) as [projs|e];
    simpl; [|discriminate].
  destruct (add_projects projs skills) as [kw1|e] eqn:Hp; simpl; [|discriminate].
  destruct (py_iter (dict_get fields "certifications" (JArr []))) as [certs|e];
    simpl; [|discriminate].
  intros Hc. apply add_certifications_Ok in Hc. apply add_projects_Ok in Hp.
  subst. rewrite <- app_assoc. reflexivity.
Qed.

(** What a successful run of the [try] body fixes. *)
Lemma structure_resume_Ok (file_stem : string) (parsed_core : json) (now : nat) r :
  structure_resume E file_stem parsed_core now = Ok r ->
  exists skills kws,
    normalize_skills E (field parsed_core "skills" (JArr [])) = Ok skills
    /\ gather_keywords parsed_core skills = Ok kws
    /\ technical_skills r = skills
    /\ keywords r = sorted_lower (set_iter E kws)
    /\ unique_id r = file_stem
    /\ total_experience r = "2+ years"
    /\ soft_skills r = []
    /\ status r = "New"
    /\ compatibility_analysis r = zero_analysis.
Proof.
  unfold structure_resume.
  destruct parsed_core; cbn [py_get bind field]; try discriminate.
  destruct (normalize_skills E (dict_get fields "skills" (JArr []))) as [skills|e]
    eqn:Hn; cbn [bind]; [|discriminate].
  destruct (gather_keywords (JObj fields) skills) as [kws|e] eqn:Hg;
    cbn [bind]; [|discriminate].
  intros H; inversion H; subst; clear H.
  exists skills, kws. repeat split; try reflexivity; assumption.
Qed.

(** Whether the body succeeds depends on the document alone, not on
    the file or the clock. *)
Lemma structure_resume_succeeds (s1 s2 : string) (parsed_core : json) (n1 n2 : nat) r :
  structure_resume E s1 parsed_core n1 = Ok r ->
  exists r', structure_resume E s2 parsed_core n2 = Ok r'.
Proof.
  unfold structure_resume.
  destruct parsed_core; cbn [py_get bind]; try discriminate.
  destruct (normalize_skills E (dict_get fields "skills" (JArr []))) as [skills|e];
    cbn [bind]; [|discriminate].
  destruct (gather_keywords (JObj fields) skills) as [kws|e]; cbn [bind]; [|discriminate].
  intros _. eexists; reflexivity.
Qed.

End StructureResume.

(** ** The batch loop *)

Section Batch.

Variable E : Env.
Variable input_dir : string.

Lemma process_files_Ok (pdf_files : list string) :
  forall all_resumes w rs w',
    process_files E input_dir pdf_files all_resumes w = (Ok rs, w') ->
    exists added,
      rs = all_resumes ++ added
      /\ Forall2 (produced E input_dir)
                 (filter (parses E input_dir) pdf_files) added
      /\ stdout w' = stdout w ++ flat_map (progress_lines E input_dir) pdf_files
      /\ written w' = written w
      /\ clock w' = (clock w + 2 * List.length added)%nat.
Proof.
  induction pdf_files as [|f rest IH]; intros acc w rs w' H.
  - cbn [process_files] in H. inversion H; subst.
    exists []; cbn. rewrite !app_nil_r, Nat.add_0_r. repeat split. constructor.
  - cbn [process_files] in H. unfold guarded in H. cbn [filter flat_map].
    unfold progress_lines at 1.
    destruct (raises E (Stdout _)); [discriminate|].
    destruct (raises E (Extract _ _)); [discriminate|].
    destruct (raises E (Loads _)); [discriminate|].
    destruct (json_loads E (raw_output_of E input_dir f)) as [j|] eqn:Hj.
    + assert (Hp : parses E input_dir f = true)
        by (unfold parses; rewrite Hj; reflexivity).
      rewrite Hp.
      destruct (structure_resume E (stem f) j _) as [r|e] eqn:Hr; [|discriminate].
      destruct (IH _ _ _ _ H) as [added [-> [HF [Hout [Hwr Hck]]]]].
      exists (r :: added). rewrite <- app_assoc. split; [reflexivity|].
      split; [|split; [|split]].
      * constructor; [|assumption]. exists j; eexists; split; eassumption.
      * rewrite Hout. cbn [tick2 print stdout]. rewrite <- app_assoc. reflexivity.
      * rewrite Hwr; reflexivity.
      * rewrite Hck. cbn [tick2 print clock List.length]. lia.
    + assert (Hp : parses E input_dir f = false)
        by (unfold parses; rewrite Hj; reflexivity).
      rewrite Hp.
      destruct (raises E (Stdout _)); [discriminate|].
      destruct (IH _ _ _ _ H) as [added [-> [HF [Hout [Hwr Hck]]]]].
      exists added. split; [reflexivity|].
      split; [assumption|split; [|split]].
      * rewrite Hout. cbn [print stdout]. unfold failure_line.
        rewrite <- !app_assoc. reflexivity.
      * rewrite Hwr; reflexivity.
      * rewrite Hck; reflexivity.
Qed.


(** A file whose document makes the body raise ends the loop there. *)
Lemma process_files_raises (pdf_files : list string) :
  forall all_resumes w rs w',
    process_files E input_dir pdf_files all_resumes w = (Ok rs, w') ->
    forall f, In f pdf_files -> structures E input_dir f = true.
Proof.
  induction pdf_files as [|f rest IH]; intros acc w rs w' H g Hg; [destruct Hg|].
  cbn [process_files] in H. unfold guarded in H.
  destruct (raises E (Stdout _)); [discriminate|].
  destruct (raises E (Extract _ _)); [discriminate|].
  destruct (raises E (Loads _)); [discriminate|].
  unfold structures.
  destruct Hg as [<-|Hg].
  - destruct (json_loads E (raw_output_of E input_dir f)) as [j|]; [|reflexivity].
    destruct (structure_resume E (stem f) j _) as [r|e] eqn:Hr; [|discriminate].
    destruct (structure_resume_succeeds E _ (stem f) _ _ 0 _ Hr) as [r' ->].
    reflexivity.
  - destruct (json_loads E (raw_output_of E input_dir f)) as [j|].
    + destruct (structure_resume E (stem f) j _) as [r|e]; [|discriminate].
      eapply IH; eassumption.
    + destruct (raises E (Stdout _)); [discriminate|].
      eapply IH; eassumption.
Qed.

(** A run that returns went through the loop, the write and the
    summary line. *)
Lemma convert_returns (output_json_path : string) (w : world) rs w' :
  convert_pdfs_to_json E input_dir output_json_path w = (Ok rs, w') ->
  exists w0,
    process_files E input_dir (glob_pdf E input_dir) [] w = (Ok rs, w0)
    /\ w' = print (nl ++ "Processed " ++ PyStr.of_nat (List.length rs)
                      ++ " resumes. Combined JSON saved at "
                      ++ path_str E output_json_path)%string
                  (write_json (path_str E output_json_path) rs w0).
Proof.
  unfold convert_pdfs_to_json, guarded.
  destruct (raises E (Glob _)); [discriminate|].
  destruct (process_files E input_dir (glob_pdf E input_dir) [] w) as [[rs0|e] w0];
    [|discriminate].
  destruct (raises E (OpenFile _)); [discriminate|].
  destruct (raises E (DumpFile _ _)); [discriminate|].
  destruct (raises E (Stdout _)); [discriminate|].
  intros H; inversion H; subst. exists w0. split; reflexivity.
Qed.

Lemma convert_Ok (output_json_path : string) (w : world) rs w' :
  convert_pdfs_to_json E input_dir output_json_path w = (Ok rs, w') ->
  Forall2 (produced E input_dir)
          (filter (parses E input_dir) (glob_pdf E input_dir)) rs
  /\ (forall f, In f (glob_pdf E input_dir) ->
                parses E input_dir f = false ->
                In (failure_line E input_dir f) (stdout w'))
  /\ dict_lookup (written w') (path_str E output_json_path) = Some rs.
Proof.
  intros H. destruct (convert_returns _ _ _ _ H) as [w0 [Hp ->]].
  destruct (process_files_Ok _ _ _ _ _ Hp) as [added [-> [HF [Hout _]]]].
  cbn [app]. split; [assumption|split].
  - intros f Hf Hnp. cbn. rewrite Hout.
    apply in_or_app; left. apply in_or_app; right.
    apply in_flat_map. exists f; split; [assumption|].
    unfold progress_lines. rewrite Hnp. right; left; reflexivity.
  - cbn. rewrite String.eqb_refl. reflexivity.
Qed.


Lemma produced_unique_id (f : string) (r : Resume) :
  produced E input_dir f r -> unique_id r = stem f.
Proof.
  intros [j [now [_ Hr]]].
  destruct (structure_resume_Ok _ _ _ _ _ Hr) as [sk [kw H]]. tauto.
Qed.

Lemma produced_unique_ids (files : list string) (rs : list Resume) :
  Forall2 (produced E input_dir) files rs -> map unique_id rs = map stem files.
Proof.
  induction 1 as [|f r fs rs' Hp _ IH]; simpl; [reflexivity|].
  rewrite IH, (produced_unique_id _ _ Hp); reflexivity.
Qed.

End Batch.

(** ** File names *)

Section FileNames.
Import PyStr.
Local Open Scope string_scope.

Lemma length_app (p s : string) :
  String.length (p ++ s) = (String.length p + String.length s)%nat.
Proof. induction p as [|c p IH]; simpl; [reflexivity|]. rewrite IH; reflexivity. Qed.

Lemma string_app_assoc (a b c : string) : (a ++ b) ++ c = a ++ (b ++ c).
Proof. induction a as [|x a IH]; simpl; [reflexivity|]. rewrite IH; reflexivity. Qed.

Lemma take_app (p s : string) : take (String.length p) (p ++ s) = p.
Proof. induction p as [|c p IH]; simpl; [destruct s|rewrite IH]; reflexivity. Qed.

Lemma substring_all (s : string) : String.substring 0 (String.length s) s = s.
Proof. induction s as [|c s IH]; simpl; [reflexivity|]. rewrite IH; reflexivity. Qed.

Lemma take_substring (s : string) :
  forall k, (k <= String.length s)%nat ->
            s = take k s ++ String.substring k (String.length s - k) s.
Proof.
  induction s as [|c s IH]; intros k Hk.
  - simpl in Hk. assert (k = 0)%nat by lia. subst. reflexivity.
  - destruct k as [|k].
    + rewrite Nat.sub_0_r, substring_all. reflexivity.
    + simpl in Hk. cbn [take String.length Nat.sub String.substring String.append].
      f_equal. apply IH. lia.
Qed.

(** A name matched by ["*.pdf"] is some text followed by [".pdf"]. *)
Lemma matches_pdf_suffix (f : string) :
  matches_pdf f = true -> exists p, f = p ++ ".pdf".
Proof.
  unfold matches_pdf, endswith. intros H.
  change (String.length ".pdf") with 4%nat in H.
  apply andb_true_iff in H. destruct H as [Hle Heq].
  apply Nat.leb_le in Hle. apply String.eqb_eq in Heq.
  exists (take (String.length f - 4) f).
  pose proof (take_substring f (String.length f - 4)) as Ht.
  replace (String.length f - (String.length f - 4))%nat with 4%nat in Ht by lia.
  rewrite Heq in Ht. apply Ht. lia.
Qed.

Lemma rfind_dot_pdf (p : string) :
  rfind_dot (p ++ ".pdf") = Z.of_nat (String.length p).
Proof.
  induction p as [|c p IH]; [reflexivity|].
  cbn [String.append rfind_dot String.length]. rewrite IH.
  destruct (0 <=? Z.of_nat (String.length p))%Z eqn:H0; [lia|].
  apply Z.leb_gt in H0. lia.
Qed.

(** The stem of a matched name is the text before [".pdf"], unless
    there is none: the stem of [".pdf"] is [".pdf"] itself. *)
Lemma stem_pdf (p : string) :
  stem (p ++ ".pdf") = if truthy p then p else ".pdf".
Proof.
  unfold stem. rewrite rfind_dot_pdf, length_app, Nat2Z.id, take_app.
  destruct p as [|c p]; [reflexivity|].
  cbn [truthy].
  assert (H1 : (0 <? Z.of_nat (String.length (String c p)))%Z = true)
    by (apply Z.ltb_lt; simpl String.length; lia).
  assert (H2 : (Z.of_nat (String.length (String c p))
                <? Z.of_nat (String.length (String c p) + String.length ".pdf") - 1)%Z
               = true)
    by (apply Z.ltb_lt; simpl String.length; lia).
  rewrite H1, H2. reflexivity.
Qed.

Lemma append_inj_r (p q s : string) : p ++ s = q ++ s -> p = q.
Proof.
  revert q; induction p as [|c p IH]; intros q H.
  - destruct q as [|d q]; [reflexivity|]. exfalso.
    apply (f_equal String.length) in H. simpl in H. rewrite length_app in H. lia.
  - destruct q as [|d q].
    + exfalso. apply (f_equal String.length) in H. simpl in H.
      rewrite length_app in H. lia.
    + simpl in H. inversion H; subst. f_equal. apply IH; assumption.
Qed.

(** Two matched names share a stem only when they are the same name or
    the pair [".pdf"], [".pdf.pdf"]. *)
Lemma stem_shared (f g : string) :
  matches_pdf f = true -> matches_pdf g = true -> stem f = stem g ->
  f = g \/ (f = ".pdf" /\ g = ".pdf.pdf") \/ (f = ".pdf.pdf" /\ g = ".pdf").
Proof.
  intros Hf Hg.
  destruct (matches_pdf_suffix _ Hf) as [p ->].
  destruct (matches_pdf_suffix _ Hg) as [q ->].
  rewrite !stem_pdf.
  destruct p as [|a p]; destruct q as [|b q]; cbn [truthy]; intros H.
  - left; reflexivity.
  - right; left. rewrite <- H. split; reflexivity.
  - right; right. rewrite H. split; reflexivity.
  - left. rewrite H; reflexivity.
Qed.

Lemma glob_pdf_matches (E : Env) (input_dir f : string) :
  In f (glob_pdf E input_dir) -> matches_pdf f = true /\ In f (listdir E input_dir).
Proof. unfold glob_pdf. rewrite filter_In. tauto. Qed.

(** Distinct names give distinct stems in a directory that does not
    hold both [".pdf"] and [".pdf.pdf"]. *)
Lemma stems_NoDup (files : list string) :
  NoDup files ->
  (forall f, In f files -> matches_pdf f = true) ->
  ~ (In ".pdf" files /\ In ".pdf.pdf" files) ->
  NoDup (map stem files).
Proof.
  intros Hnd Hm Hpair. apply NoDup_map_NoDup_ForallPairs; [|assumption].
  intros f g Hf Hg Hs.
  destruct (stem_shared f g (Hm _ Hf) (Hm _ Hg) Hs) as [H|[[-> ->]|[-> ->]]];
    [assumption| |]; exfalso; apply Hpair; split; assumption.
Qed.

End FileNames.

(** ** The evidence merge *)

Section Merge.

Lemma dd_append_map (B : string -> list string) (u x : string) (ks : list string) :
  NoDup ks ->
  dd_append u x (map (fun k => (k, B k)) ks)
  = map (fun k => (k, if k =? u then B k ++ [x] else B k)) ks
    ++ (if existsb (String.eqb u) ks then [] else [(u, [x])]).
Proof.
  induction 1 as [|k r Hk Hnd IH]; [reflexivity|].
  cbn [map dd_append existsb app]. rewrite (String.eqb_sym u k).
  destruct (String.eqb_spec k u) as [->|Hne]; cbn [orb].
  - rewrite app_nil_r. f_equal. apply map_ext_in.
    intros k' Hk'. destruct (String.eqb_spec k' u) as [->|_]; [contradiction|reflexivity].
  - rewrite IH. reflexivity.
Qed.

Lemma block_of_snoc (docs : list Document) (d : Document) (k : string) :
  block_of (docs ++ [d]) k
  = block_of docs k ++ (if uid_of d =? k then [format_chunk d] else []).
Proof.
  unfold block_of. rewrite filter_app, map_app. cbn [filter].
  destruct (uid_of d =? k); reflexivity.
Qed.

Lemma block_of_unseen (docs : list Document) (k : string) :
  existsb (String.eqb k) (map uid_of docs) = false -> block_of docs k = [].
Proof.
  unfold block_of. induction docs as [|d r IH]; cbn [map existsb filter]; intros H.
  - reflexivity.
  - apply orb_false_iff in H. destruct H as [Hd Hr].
    rewrite String.eqb_sym, Hd. apply IH; assumption.
Qed.

Lemma grouped_snoc (docs : list Document) (d : Document) :
  dd_append (uid_of d) (format_chunk d) (grouped docs) = grouped (docs ++ [d]).
Proof.
  unfold grouped. rewrite dd_append_map by apply first_seen_NoDup.
  rewrite map_app. cbn [map]. rewrite first_seen_snoc.
  assert (Hex : existsb (String.eqb (uid_of d)) (first_seen (map uid_of docs))
                = existsb (String.eqb (uid_of d)) (map uid_of docs)).
  { apply eq_true_iff_eq. rewrite !existsb_exists.
    split; intros [y [Hy Hxy]]; exists y; split; try assumption;
      apply first_seen_In; assumption. }
  rewrite Hex.
  assert (Hmap : map (fun k => (k, if k =? uid_of d
                                   then block_of docs k ++ [format_chunk d]
                                   else block_of docs k))
                     (first_seen (map uid_of docs))
                 = map (fun k => (k, block_of (docs ++ [d]) k))
                       (first_seen (map uid_of docs))).
  { apply map_ext. intros k. rewrite block_of_snoc, (String.eqb_sym k).
    destruct (uid_of d =? k); [reflexivity|rewrite app_nil_r; reflexivity]. }
  rewrite Hmap.
  destruct (existsb (String.eqb (uid_of d)) (map uid_of docs)) eqn:Hseen.
  - rewrite app_nil_r. reflexivity.
  - rewrite map_app. cbn [map]. rewrite block_of_snoc, String.eqb_refl.
    rewrite (block_of_unseen _ _ Hseen). reflexivity.
Qed.

(** The loop builds one block per key, keys in first-seen order, each
    block holding the formatted chunks of that key in retrieval order. *)
Lemma merged_context_grouped (query_docs : list Document) :
  merged_context query_docs = grouped query_docs.
Proof.
  unfold merged_context.
  induction query_docs as [|d docs IH] using rev_ind; [reflexivity|].
  rewrite fold_left_app. cbn [fold_left]. rewrite IH. apply grouped_snoc.
Qed.

Lemma dict_get_lookup {V : Type} (d : list (string * V)) k default v :
  dict_lookup d k = Some v -> dict_get d k default = v.
Proof. unfold dict_get. intros ->. reflexivity. Qed.

End Merge.

(** ** Documents of the requested shape *)

Section Schema.
Import PyStr.

Variable E : Env.

Lemma str_list_strings (v : json) :
  str_list v = true -> exists strs, v = JArr (map JStr strs).
Proof.
  destruct v; simpl; try discriminate.
  induction items as [|i rest IH]; simpl; intros H.
  - exists []; reflexivity.
  - apply andb_true_iff in H. destruct H as [Hi Hrest].
    destruct i; simpl in Hi; try discriminate.
    destruct (IH Hrest) as [ss Hss]. inversion Hss; subst.
    exists (s :: ss); reflexivity.
Qed.

Lemma add_technologies_strings (strs : list string) :
  forall kw, add_technologies (map JStr strs) kw = Ok (kw ++ map strip strs).
Proof.
  induction strs as [|s rest IH]; simpl; intros kw.
  - rewrite app_nil_r; reflexivity.
  - rewrite IH, <- app_assoc; reflexivity.
Qed.

Lemma add_projects_shaped (projs : list json) :
  forallb project_shaped projs = true ->
  forall kw, exists kw', add_projects projs kw = Ok kw'.
Proof.
  induction projs as [|p rest IH]; simpl; intros H kw; [eauto|].
  apply andb_true_iff in H. destruct H as [Hp Hrest].
  destruct p; simpl in Hp; try discriminate.
  destruct (str_list_strings _ Hp) as [ss Hss].
  cbn [py_get bind]. rewrite Hss. cbn [py_iter bind].
  rewrite add_technologies_strings. cbn [bind]. apply IH; assumption.
Qed.

Lemma add_certifications_shaped (certs : list json) :
  forallb certification_shaped certs = true ->
  forall kw, exists kw', add_certifications certs kw = Ok kw'.
Proof.
  induction certs as [|c rest IH]; simpl; intros H kw; [eauto|].
  apply andb_true_iff in H. destruct H as [Hc Hrest].
  destruct c; simpl in Hc; cbn [add_certification py_get bind]; try (apply IH; assumption).
  destruct (dict_get fields "name" (JStr EmptyString)); simpl in Hc; try discriminate.
  cbn [py_strip bind]. destruct (truthy (strip s)); cbn [bind]; apply IH; assumption.
Qed.

(** On a document of the requested shape the [try] body raises nothing:
    missing fields take their defaults. *)
Lemma schema_shaped_Ok (parsed_core : json) (file_stem : string) (now : nat) :
  schema_shaped parsed_core = true ->
  exists r, structure_resume E file_stem parsed_core now = Ok r.
Proof.
  destruct parsed_core; simpl; try discriminate. intros H.
  apply andb_true_iff in H. destruct H as [H Hcerts].
  apply andb_true_iff in H. destruct H as [Hskills Hprojs].
  destruct (str_list_strings _ Hskills) as [ss Hss].
  unfold structure_resume. cbn [py_get bind]. rewrite Hss.
  rewrite normalize_skills_strings. cbn [bind].
  unfold gather_keywords. cbn [py_get bind].
  destruct (dict_get fields "projects" (JArr [])) as [| | | | |projs|];
    simpl in Hprojs; try discriminate.
  destruct (dict_get fields "certifications" (JArr [])) as [| | | | |certs|];
    simpl in Hcerts; try discriminate.
  cbn [py_iter bind].
  destruct (add_projects_shaped _ Hprojs
              (sorted_lower (set_iter E (tokens ss)))) as [kw1 ->].
  cbn [bind].
  destruct (add_certifications_shaped _ Hcerts kw1) as [kw2 ->].
  cbn [bind]. eexists; reflexivity.
Qed.

End Schema.

Section ListFacts.

Lemma NoDup_map_In_eq {A B : Type} (f : A -> B) (l : list A) a b :
  NoDup (map f l) -> In a l -> In b l -> f a = f b -> a = b.
Proof.
  induction l as [|x r IH]; simpl; intros Hnd Ha Hb Hf; [destruct Ha|].
  inversion Hnd as [|? ? Hx Hr]; subst.
  destruct Ha as [->|Ha]; destruct Hb as [->|Hb]; auto.
  - exfalso. apply Hx. rewrite Hf. apply in_map; assumption.
  - exfalso. apply Hx. rewrite <- Hf. apply in_map; assumption.
Qed.

End ListFacts.

(** * The claims *)

Section Claims.
Import PyStr.

(** ** Skill normalization *)

(** C1, as stated, fails: on the skills ["Python (Django, Flask)"] and
    ["python"] no iteration order of the set makes [normalize_skills]
    return Django, Flask, Python.  The set removes equal strings only,
    so the token ["python"] stays beside ["Python"]. *)
Lemma normalize_skills_keeps_both_spellings :
  ~ exists E,
      set_iter_spec E
      /\ normalize_skills E (JArr (map JStr python_skills))
         = Ok ["Django"; "Flask"; "Python"].
Proof.
  intros [E [HE H]]. rewrite normalize_skills_strings in H.
  remember (sorted_lower (set_iter E (tokens python_skills))) as out eqn:Hout.
  assert (Hin : In "python" out).
  { subst out. apply sorted_set_In; [assumption|]. vm_compute. tauto. }
  injection H as ->. simpl in Hin.
  repeat (destruct Hin as [Hin|Hin]; [discriminate|]). exact Hin.
Qed.

(** C1, amended: for every list of skill strings [normalize_skills]
    returns a list that holds exactly the stripped, non-empty pieces
    obtained by splitting each string at parentheses and commas; no
    entry is empty, begins or ends with white space or holds a
    delimiter; equal strings are kept once (entries that differ only in
    case are all kept); the list is sorted case-insensitively.  For the
    skills ["Python (Django, Flask)"] and ["python"] it is Django,
    Flask, then Python and python in either order. *)
Theorem normalize_skills_exact_dedup (E : Env) (skills_list : list string) :
  set_iter_spec E ->
  exists out,
    normalize_skills E (JArr (map JStr skills_list)) = Ok out
    /\ (forall x,
          In x out <->
          exists skill piece,
            In skill skills_list /\ In piece (re_split skill)
            /\ x = strip piece /\ x <> EmptyString)
    /\ (forall x,
          In x out ->
          x <> EmptyString
          /\ (forall c r, x = String c r -> isspace c = false)
          /\ (forall c, last_char x = Some c -> isspace c = false)
          /\ (forall c, char_in c x -> is_delim c = false))
    /\ NoDup out
    /\ Sorted le_lower out
    /\ (skills_list = python_skills ->
        out = ["Django"; "Flask"; "Python"; "python"]
        \/ out = ["Django"; "Flask"; "python"; "Python"]).
Proof.
  intros HE. exists (sorted_lower (set_iter E (tokens skills_list))).
  split; [apply normalize_skills_strings|].
  split; [|split; [|split; [|split]]].
  - intros x. rewrite (sorted_set_In E HE). apply tokens_In.
  - intros x Hx. apply (proj1 (sorted_set_In E HE _ x)) in Hx.
    apply (tokens_clean skills_list). exact Hx.
  - apply sorted_set_NoDup; assumption.
  - apply sorted_lower_sorted.
  - intros ->. apply normalize_python_skills; assumption.
Qed.

Lemma normalize_skills_exact_dedup_sample :
  set_iter_spec sample_env
  /\ exists out,
       normalize_skills sample_env (JArr (map JStr python_skills)) = Ok out
       /\ NoDup out
       /\ Sorted le_lower out
       /\ (out = ["Django"; "Flask"; "Python"; "python"]
           \/ out = ["Django"; "Flask"; "python"; "Python"]).
Proof.
  split; [exact sample_env_lawful|].
  destruct (normalize_skills_exact_dedup sample_env python_skills sample_env_lawful)
    as [out [Hout [_ [_ [Hnd [Hs Hex]]]]]].
  exists out. repeat split; [exact Hout|exact Hnd|exact Hs|exact (Hex eq_refl)].
Defined.

(** ** Keywords *)

Lemma keywords_members (E : Env) file_stem parsed_core now r :
  set_iter_spec E ->
  structure_resume E file_stem parsed_core now = Ok r ->
  keywords r
  = sorted_lower (set_iter E (technical_skills r
                              ++ technology_tags parsed_core
                              ++ certification_names parsed_core))
  /\ forall x,
       In x (keywords r) <->
       In x (technical_skills r) \/ In x (technology_tags parsed_core)
       \/ In x (certification_names parsed_core).
Proof.
  intros HE H.
  destruct (structure_resume_Ok _ _ _ _ _ H)
    as [skills [kws [_ [Hg [Hts [Hkw _]]]]]].
  apply gather_keywords_Ok in Hg. subst kws. rewrite Hts, Hkw.
  split; [reflexivity|].
  intros x. rewrite (sorted_set_In E HE), !in_app_iff. tauto.
Qed.

Lemma technical_skills_tokens (E : Env) file_stem parsed_core now r :
  set_iter_spec E ->
  structure_resume E file_stem parsed_core now = Ok r ->
  exists strs, forall x, In x (technical_skills r) <-> In x (tokens strs).
Proof.
  intros HE H.
  destruct (structure_resume_Ok _ _ _ _ _ H) as [skills [kws [Hn [_ [Hts _]]]]].
  destruct (normalize_skills_Ok _ _ _ Hn) as [strs [_ Hout]].
  exists strs. intros x. rewrite Hts, Hout. apply sorted_set_In; assumption.
Qed.

(** C2, as stated, fails: for skills [["Go"]] and a project whose
    technologies are [["go"]] the keywords hold both spellings under
    every iteration order, so the union is not taken up to case. *)
Lemma keywords_keep_both_spellings :
  ~ exists E r,
      set_iter_spec E
      /\ structure_resume E "cv" go_document 0 = Ok r
      /\ dedup_nocase (keywords r).
Proof.
  intros [E [r [HE [H Hd]]]].
  destruct (keywords_members _ _ _ _ _ HE H) as [_ Hin].
  destruct (structure_resume_Ok _ _ _ _ _ H) as [skills [kws [Hn [_ [Hts _]]]]].
  change (field go_document "skills" (JArr [])) with (JArr (map JStr ["Go"])) in Hn.
  rewrite normalize_skills_strings in Hn.
  remember (sorted_lower (set_iter E (tokens ["Go"]))) as out eqn:Hout.
  injection Hn as Hsk.
  assert (H1 : In "Go" (keywords r)).
  { apply Hin. left. rewrite Hts, <- Hsk, Hout. apply sorted_set_In; [assumption|].
    vm_compute; tauto. }
  assert (H2 : In "go" (keywords r)).
  { apply Hin. right; left. vm_compute; tauto. }
  assert (Heq : "Go" = "go")
    by (apply (NoDup_map_In_eq lower (keywords r)); auto).
  discriminate Heq.
Qed.

(** C2, amended: for every successfully processed document the keywords
    are the sorted iteration of the set that received the normalized
    technical skills, the stripped technology tags of the projects and
    the certification names (the stripped, non-empty name of a record,
    the stripped text of a plain string): a keyword is exactly a member
    of one of the three; equal strings appear once, entries that differ
    only in case are all kept; the list is sorted case-insensitively and
    holds every normalized technical skill. *)
Theorem keywords_exact_union (E : Env) file_stem parsed_core now r :
  set_iter_spec E ->
  structure_resume E file_stem parsed_core now = Ok r ->
  keywords r
  = sorted_lower (set_iter E (technical_skills r
                              ++ technology_tags parsed_core
                              ++ certification_names parsed_core))
  /\ (forall x,
        In x (keywords r) <->
        In x (technical_skills r) \/ In x (technology_tags parsed_core)
        \/ In x (certification_names parsed_core))
  /\ NoDup (keywords r)
  /\ Sorted le_lower (keywords r)
  /\ incl (technical_skills r) (keywords r).
Proof.
  intros HE H.
  destruct (keywords_members _ _ _ _ _ HE H) as [Heq Hin].
  split; [exact Heq|]. split; [exact Hin|].
  split; [|split].
  - rewrite Heq. apply sorted_set_NoDup; assumption.
  - rewrite Heq. apply sorted_lower_sorted.
  - intros x Hx. apply Hin. left; exact Hx.
Qed.

Lemma keywords_exact_union_sample :
  exists r,
    structure_resume sample_env "cv" grpc_document 0 = Ok r
    /\ technical_skills r = ["Go"]
    /\ keywords r = ["Go"; "gRPC"]
    /\ incl (technical_skills r) (keywords r).
Proof.
  eexists. split; [reflexivity|].
  split; [reflexivity|]. split; [reflexivity|].
  exact (proj2 (proj2 (proj2 (proj2
           (keywords_exact_union sample_env "cv" grpc_document 0 _
              sample_env_lawful eq_refl))))).
Defined.

(** C9: a technology tag and a plain-string certification enter the
    keywords stripped and otherwise as they are, empty or not, whereas
    no normalized technical skill is empty; a certification that is only
    white space puts the empty string among the keywords. *)
Theorem keywords_keep_blank_entries (E : Env) file_stem parsed_core now r :
  set_iter_spec E ->
  structure_resume E file_stem parsed_core now = Ok r ->
  (forall proj tech,
      In proj (iter_items (field parsed_core "projects" (JArr []))) ->
      In (JStr tech) (iter_items (field proj "technologies" (JArr []))) ->
      In (strip tech) (keywords r))
  /\ (forall cert,
        In (JStr cert) (iter_items (field parsed_core "certifications" (JArr []))) ->
        In (strip cert) (keywords r))
  /\ ~ In EmptyString (technical_skills r)
  /\ exists r',
       structure_resume E file_stem blank_certification_document now = Ok r'
       /\ In EmptyString (keywords r')
       /\ ~ In EmptyString (technical_skills r').
Proof.
  intros HE H.
  assert (General : forall j r0,
             structure_resume E file_stem j now = Ok r0 ->
             (forall proj tech,
                 In proj (iter_items (field j "projects" (JArr []))) ->
                 In (JStr tech) (iter_items (field proj "technologies" (JArr []))) ->
                 In (strip tech) (keywords r0))
             /\ (forall cert,
                    In (JStr cert) (iter_items (field j "certifications" (JArr []))) ->
                    In (strip cert) (keywords r0))
             /\ ~ In EmptyString (technical_skills r0)).
  { intros j r0 H0.
    destruct (keywords_members _ _ _ _ _ HE H0) as [_ Hin].
    split; [|split].
    - intros proj tech Hp Ht. apply Hin. right; left.
      unfold technology_tags. apply in_flat_map. exists proj; split; [assumption|].
      apply in_flat_map. exists (JStr tech); split; [assumption|]. left; reflexivity.
    - intros cert Hc. apply Hin. right; right.
      unfold certification_names. apply in_flat_map.
      exists (JStr cert); split; [assumption|]. left; reflexivity.
    - destruct (technical_skills_tokens _ _ _ _ _ HE H0) as [strs Hts].
      intros Hempty. apply Hts in Hempty.
      destruct (tokens_clean _ _ Hempty) as [Hne _]. apply Hne; reflexivity. }
  destruct (General _ _ H) as [Htech [Hcert Hskills]].
  split; [exact Htech|]. split; [exact Hcert|]. split; [exact Hskills|].
  destruct (schema_shaped_Ok E blank_certification_document file_stem now eq_refl)
    as [r' Hr'].
  exists r'. split; [exact Hr'|].
  destruct (General _ _ Hr') as [_ [Hc' Hs']].
  split; [|exact Hs'].
  apply (Hc' "  "). vm_compute. tauto.
Qed.

Lemma keywords_keep_blank_entries_sample :
  exists r,
    structure_resume sample_env "cv" blank_certification_document 0 = Ok r
    /\ keywords r = [EmptyString; "Go"]
    /\ ~ In EmptyString (technical_skills r).
Proof.
  eexists. split; [reflexivity|]. split; [reflexivity|].
  exact (proj1 (proj2 (proj2
           (keywords_keep_blank_entries sample_env "cv"
              blank_certification_document 0 _ sample_env_lawful eq_refl)))).
Defined.

End Claims.

Section BatchClaims.
Import PyStr.

(** ** Partial failure *)





(** ** Order of the records *)

(** C5, as stated, fails: the directory ["unsorted"] is scanned as
    [b.pdf], [a.pdf]; the records come out in that order, not in the
    lexical order of the names. *)
Lemma records_not_in_lexical_order :
  listdir sample_env "unsorted" = ["b.pdf"; "a.pdf"]
  /\ exists rs w',
       convert_pdfs_to_json sample_env "unsorted" "out.json" initial_world
       = (Ok rs, w')
       /\ map unique_id rs = ["b"; "a"].
Proof.
  split; [reflexivity|]. eexists; eexists. split; reflexivity.
Qed.

(** C5, amended: the pipeline takes the files in the order in which the
    directory scan yields the names matching ["*.pdf"] and applies no
    sort; the records of a run that returns appear in that order, one
    per file whose extraction decodes, so the order is a function of the
    scan order and is lexical only when the scan is. *)
Theorem records_follow_scan_order
        (E : Env) (input_dir output_json_path : string) (w : world) rs w' :
  convert_pdfs_to_json E input_dir output_json_path w = (Ok rs, w') ->
  map unique_id rs
  = map stem (filter (parses E input_dir)
                     (filter matches_pdf (listdir E input_dir))).
Proof.
  intros H. destruct (convert_Ok _ _ _ _ _ _ H) as [HF _].
  apply (produced_unique_ids _ _ _ _ HF).
Qed.

Lemma records_follow_scan_order_sample :
  exists rs w',
    convert_pdfs_to_json sample_env "three" "out.json" initial_world = (Ok rs, w')
    /\ listdir sample_env "three" = ["a.pdf"; "b.pdf"; "c.pdf"; "notes.txt"]
    /\ map unique_id rs = ["a"; "c"].
Proof.
  eexists; eexists. split; [reflexivity|]. split; [reflexivity|].
  rewrite (records_follow_scan_order sample_env "three" "out.json" initial_world
             _ _ eq_refl).
  reflexivity.
Defined.

(** ** Identifiers *)

(** C6, as stated, fails: a directory may hold the two distinct names
    [.pdf] and [.pdf.pdf]; both match ["*.pdf"], both have the stem
    [.pdf], and the two records of the batch share that unique_id (which
    for the first is the whole file name, extension included). *)
Lemma dotted_names_share_unique_id :
  NoDup (listdir sample_env "dotted")
  /\ exists rs w',
       convert_pdfs_to_json sample_env "dotted" "out.json" initial_world
       = (Ok rs, w')
       /\ map unique_id rs = [".pdf"; ".pdf"].
Proof.
  split.
  - vm_compute. repeat constructor; simpl; intuition discriminate.
  - eexists; eexists. split; reflexivity.
Qed.

(** C6, amended: the unique_id of a record is the stem of its file
    name, a function of the name alone: the name without its final
    [.pdf], except that the stem of the bare name [.pdf] is [.pdf]
    itself.  Within a batch read from one directory the unique_ids are
    pairwise distinct unless the directory holds both [.pdf] and
    [.pdf.pdf]. *)
Theorem unique_id_is_stem
        (E : Env) (input_dir output_json_path : string) (w : world) rs w' :
  convert_pdfs_to_json E input_dir output_json_path w = (Ok rs, w') ->
  NoDup (listdir E input_dir) ->
  ~ (In ".pdf" (listdir E input_dir) /\ In ".pdf.pdf" (listdir E input_dir)) ->
  Forall2 (fun f r => unique_id r = stem f)
          (filter (parses E input_dir) (glob_pdf E input_dir)) rs
  /\ (forall f, In f (glob_pdf E input_dir) ->
                exists p, f = (p ++ ".pdf")%string
                          /\ stem f = if truthy p then p else ".pdf")
  /\ NoDup (map unique_id rs).
Proof.
  intros H Hnd Hpair. destruct (convert_Ok _ _ _ _ _ _ H) as [HF _].
  split; [|split].
  - eapply Forall2_impl; [|exact HF]. intros f r. apply produced_unique_id.
  - intros f Hf. apply glob_pdf_matches in Hf. destruct Hf as [Hm _].
    destruct (matches_pdf_suffix _ Hm) as [p ->].
    exists p. split; [reflexivity|apply stem_pdf].
  - rewrite (produced_unique_ids _ _ _ _ HF).
    apply stems_NoDup.
    + apply NoDup_filter. unfold glob_pdf. apply NoDup_filter. exact Hnd.
    + intros f Hf. apply filter_In in Hf. destruct Hf as [Hf _].
      apply glob_pdf_matches in Hf. tauto.
    + intros [H1 H2]. apply Hpair.
      apply filter_In in H1. apply filter_In in H2.
      destruct H1 as [H1 _], H2 as [H2 _].
      apply glob_pdf_matches in H1. apply glob_pdf_matches in H2. tauto.
Qed.

Lemma sample_three_NoDup : NoDup (listdir sample_env "three").
Proof. vm_compute. repeat constructor; simpl; intuition discriminate. Defined.

Lemma sample_three_undotted :
  ~ (In ".pdf" (listdir sample_env "three")
     /\ In ".pdf.pdf" (listdir sample_env "three")).
Proof. vm_compute. intuition discriminate. Defined.

Lemma unique_id_is_stem_sample :
  exists rs w',
    convert_pdfs_to_json sample_env "three" "out.json" initial_world = (Ok rs, w')
    /\ NoDup (map unique_id rs).
Proof.
  eexists; eexists. split; [reflexivity|].
  exact (proj2 (proj2
           (unique_id_is_stem sample_env "three" "out.json" initial_world _ _
              eq_refl sample_three_NoDup sample_three_undotted))).
Defined.

(** ** Placeholders *)

(** C10: every record of the returned collection has total_experience
    ["2+ years"], no soft skills, status ["New"], and a compatibility
    analysis whose five scores are zero and whose four lists are empty,
    whatever the document said. *)
Theorem placeholders_are_constant
        (E : Env) (input_dir output_json_path : string) (w : world) rs w' r :
  convert_pdfs_to_json E input_dir output_json_path w = (Ok rs, w') ->
  In r rs ->
  total_experience r = "2+ years"
  /\ soft_skills r = []
  /\ status r = "New"
  /\ overall_score (compatibility_analysis r) = 0%Z
  /\ skills_match (detailed_scoring (compatibility_analysis r)) = 0%Z
  /\ experience_relevance (detailed_scoring (compatibility_analysis r)) = 0%Z
  /\ education_fit (detailed_scoring (compatibility_analysis r)) = 0%Z
  /\ overall_potential (detailed_scoring (compatibility_analysis r)) = 0%Z
  /\ strengths (analysis (compatibility_analysis r)) = []
  /\ gaps (analysis (compatibility_analysis r)) = []
  /\ matching_points (analysis (compatibility_analysis r)) = []
  /\ improvement_areas (analysis (compatibility_analysis r)) = [].
Proof.
  intros H Hr. destruct (convert_Ok _ _ _ _ _ _ H) as [HF _].
  assert (Hprod : exists f, produced E input_dir f r).
  { clear H. induction HF as [|f r0 fs rs0 Hp _ IH]; [destruct Hr|].
    destruct Hr as [->|Hr]; [exists f; exact Hp|apply IH; exact Hr]. }
  destruct Hprod as [f [j [now [_ Hs]]]].
  destruct (structure_resume_Ok _ _ _ _ _ Hs)
    as [sk [kw [_ [_ [_ [_ [_ [Hte [Hso [Hst Hca]]]]]]]]]].
  rewrite Hca. repeat split; assumption || reflexivity.
Qed.

Lemma placeholders_are_constant_sample :
  exists rs w',
    convert_pdfs_to_json sample_env "three" "out.json" initial_world = (Ok rs, w')
    /\ Forall (fun r => total_experience r = "2+ years"
                        /\ soft_skills r = [] /\ status r = "New") rs.
Proof.
  eexists; eexists. split; [reflexivity|].
  apply Forall_forall. intros r Hr.
  destruct (placeholders_are_constant sample_env "three" "out.json" initial_world
              _ _ r eq_refl Hr) as [H1 [H2 [H3 _]]].
  repeat split; assumption.
Defined.

End BatchClaims.

Section QueryClaims.

(** ** Evidence merge *)

(** C3: the merge makes one block per grouping key, the keys in the
    order in which they are first seen; the block of a key holds, in
    retrieval order, exactly the chunks whose metadata unique_id is that
    key; and each entry is the chunk's text behind the header lines
    giving the candidate's name, designation and that id. *)
Theorem merge_groups_by_unique_id (query_docs : list Document) :
  merged_context query_docs = grouped query_docs
  /\ map fst (merged_context query_docs) = first_seen (map uid_of query_docs)
  /\ forall k parts,
       In (k, parts) (merged_context query_docs) ->
       parts = map format_chunk (filter (fun doc => uid_of doc =? k) query_docs)
       /\ forall part,
            In part parts ->
            exists doc,
              In doc query_docs
              /\ uid_of doc = k
              /\ (forall u, dict_lookup (metadata doc) "unique_id" = Some u -> u = k)
              /\ part
                 = ("Candidate Name: " ++ dict_get (metadata doc) "name" "N/A" ++ nl
                    ++ "Designation: " ++ dict_get (metadata doc) "designation" "N/A"
                    ++ nl ++ "Resume ID: " ++ k ++ nl
                    ++ "Resume Content:" ++ nl ++ page_content doc)%string.
Proof.
  split; [apply merged_context_grouped|]. split.
  - rewrite merged_context_grouped. unfold grouped.
    rewrite map_map. cbn [fst]. apply map_id.
  - intros k parts Hin. rewrite merged_context_grouped in Hin.
    unfold grouped in Hin. apply in_map_iff in Hin.
    destruct Hin as [k' [Heq _]]. inversion Heq; subst k' parts; clear Heq.
    split; [reflexivity|].
    intros part Hpart. unfold block_of in Hpart. apply in_map_iff in Hpart.
    destruct Hpart as [doc [Hfmt Hdoc]]. apply filter_In in Hdoc.
    destruct Hdoc as [Hdoc Huid]. apply String.eqb_eq in Huid.
    exists doc. split; [exact Hdoc|]. split; [exact Huid|]. split.
    + intros u Hu. rewrite <- Huid. unfold uid_of.
      symmetry. apply dict_get_lookup; exact Hu.
    + rewrite <- Hfmt, <- Huid. unfold format_chunk, chunk_header.
      rewrite !string_app_assoc. reflexivity.
Qed.

(** On the sample chunks: two blocks, [r1] first, the second chunk of
    [r1] in the block of [r1]. *)
Lemma merge_groups_by_unique_id_sample :
  map fst (merged_context sample_docs) = ["r1"; "r2"]
  /\ map (fun kv => List.length (snd kv)) (merged_context sample_docs)
     = [2%nat; 1%nat].
Proof.
  rewrite (proj1 (merge_groups_by_unique_id sample_docs)).
  split; reflexivity.
Defined.

(** ** Display of the answer *)




End QueryClaims.

Section Defaults.

Lemma schema_shaped_structures (E : Env) (input_dir pdf_file : string) :
  (forall parsed_core,
      json_loads E (raw_output_of E input_dir pdf_file) = Some parsed_core ->
      schema_shaped parsed_core = true) ->
  structures E input_dir pdf_file = true.
Proof.
  intros H. unfold structures.
  destruct (json_loads E (raw_output_of E input_dir pdf_file)) as [j|]; [|reflexivity].
  destruct (schema_shaped_Ok E j (stem pdf_file) 0 (H j eq_refl)) as [r ->].
  reflexivity.
Qed.

(** The splitter is set up with an overlap below the chunk size. *)
Lemma chunk_overlap_below_size : (0 <= chunk_overlap < chunk_size)%Z.
Proof. unfold chunk_overlap, chunk_size. lia. Qed.



End Defaults.

(** * Further properties of the code *)

(** ** normalize_skills on any input *)

Section NormalizeAnyInput.
Import PyStr.

Variable E : Env.

Lemma forallb_is_str (items : list json) :
  forallb is_str items = true <-> exists strs, items = map JStr strs.
Proof.
  induction items as [|i rest IH]; simpl.
  - split; [exists []; reflexivity|reflexivity].
  - rewrite andb_true_iff, IH. split.
    + intros [Hi [ss ->]]. destruct i; try discriminate. exists (s :: ss); reflexivity.
    + intros [ss Hss]. destruct ss as [|s ss]; [discriminate|].
      inversion Hss; subst. split; [reflexivity|exists ss; reflexivity].
Qed.

Lemma normalize_loop_outcome (items : list json) :
  forall normalized,
    match normalize_loop items normalized with
    | Ok _ => forallb is_str items = true
    | Raise e => e = TypeError /\ forallb is_str items = false
    end.
Proof.
  induction items as [|i rest IH]; intros normalized; cbn [normalize_loop forallb].
  - reflexivity.
  - destruct i; cbn [py_re_split bind is_str andb]; try (split; reflexivity).
    apply IH.
Qed.

Lemma normalize_skills_result (skills_list : json) :
  match normalize_skills E skills_list with
  | Ok _ => iterates is_str skills_list = true
  | Raise e => e = TypeError /\ iterates is_str skills_list = false
  end.
Proof.
  unfold normalize_skills, iterates.
  destruct (py_iter skills_list) as [items|e] eqn:Hit; cbn [bind].
  - pose proof (normalize_loop_outcome items []) as H.
    destruct (normalize_loop items []) as [n|e]; cbn [bind]; exact H.
  - split; [|reflexivity].
    destruct skills_list; simpl in Hit; congruence.
Qed.

(** X2: [normalize_skills] returns exactly when its argument can be
    iterated and yields only strings; otherwise it raises [TypeError],
    never anything else. *)
Theorem normalize_skills_outcome (skills_list : json) :
  match normalize_skills E skills_list with
  | Ok _ => iterates is_str skills_list = true
  | Raise e => e = TypeError /\ iterates is_str skills_list = false
  end.
Proof. apply normalize_skills_result. Qed.

Lemma tokens_of_char (c : ascii) :
  tokens_of (String c EmptyString)
  = if is_delim c || isspace c then [] else [String c EmptyString].
Proof.
  unfold tokens_of, strip. cbn [re_split lstrip].
  destruct (is_delim c) eqn:Hd; destruct (isspace c) eqn:Hs;
    cbn [map filter lstrip rstrip truthy orb]; rewrite ?Hs;
    cbn [rstrip truthy]; rewrite ?Hs; reflexivity.
Qed.

Lemma tokens_chars_In (s : string) x :
  In x (tokens (chars s)) <->
  exists c, char_in c s /\ is_delim c = false /\ isspace c = false
            /\ x = String c EmptyString.
Proof.
  unfold char_in. induction s as [|a s IH]; cbn [chars tokens flat_map].
  - split; [intros []|intros [c [[] _]]].
  - rewrite in_app_iff. fold (tokens (chars s)). rewrite IH, tokens_of_char.
    cbn [list_ascii_of_string In]. split.
    + intros [H|[c [Hc H]]].
      * destruct (is_delim a) eqn:Hd; destruct (isspace a) eqn:Hs;
          cbn [orb In] in H; try contradiction.
        destruct H as [<-|[]]. exists a; auto.
      * exists c; tauto.
    + intros [c [[->|Hc] [Hd [Hs ->]]]].
      * left. rewrite Hd, Hs. left; reflexivity.
      * right. exists c; auto.
Qed.

Hypothesis E_lawful : set_iter_spec E.

(** X3: when [skills] is one string instead of a list, the loop runs
    over its characters: the result holds exactly the characters of the
    string that are neither a delimiter nor white space, as strings of
    length one, each once however often it occurs, sorted
    case-insensitively; it never holds a word of several characters. *)
Theorem normalize_skills_of_str (s : string) :
  exists out,
    normalize_skills E (JStr s) = Ok out
    /\ NoDup out
    /\ Sorted le_lower out
    /\ forall x,
         In x out <->
         exists c, char_in c s /\ is_delim c = false /\ isspace c = false
                   /\ x = String c EmptyString.
Proof.
  exists (sorted_lower (set_iter E (tokens (chars s)))). split.
  - unfold normalize_skills. cbn [py_iter bind].
    rewrite normalize_loop_strings. reflexivity.
  - split; [apply sorted_set_NoDup; exact E_lawful|].
    split; [apply sorted_lower_sorted|].
    intros x. rewrite (sorted_set_In E E_lawful). apply tokens_chars_In.
Qed.

Lemma re_split_no_delim_id (x : string) :
  (forall c, char_in c x -> is_delim c = false) -> re_split x = [x].
Proof.
  unfold char_in. induction x as [|a x IH]; intros H; [reflexivity|].
  cbn [re_split]. rewrite (H a (or_introl eq_refl)).
  rewrite IH; [reflexivity|]. intros c Hc. apply H. right; exact Hc.
Qed.

Lemma rstrip_id (x : string) :
  (forall c, last_char x = Some c -> isspace c = false) -> rstrip x = x.
Proof.
  induction x as [|a x IH]; intros H; [reflexivity|].
  cbn [rstrip]. destruct x as [|b x].
  - cbn [rstrip]. rewrite (H a eq_refl). reflexivity.
  - rewrite IH; [reflexivity|]. intros c Hc. apply H. exact Hc.
Qed.

Lemma strip_id (x : string) :
  (forall c r, x = String c r -> isspace c = false) ->
  (forall c, last_char x = Some c -> isspace c = false) ->
  strip x = x.
Proof.
  intros Hh Hl. unfold strip.
  assert (Hls : lstrip x = x).
  { destruct x as [|a x]; [reflexivity|]. cbn [lstrip].
    rewrite (Hh a x eq_refl). reflexivity. }
  rewrite Hls. apply rstrip_id; exact Hl.
Qed.

Lemma tokens_of_clean (x : string) : clean_token x -> tokens_of x = [x].
Proof.
  intros [Hne [Hh [Hl Hd]]]. unfold tokens_of.
  rewrite (re_split_no_delim_id x Hd). cbn [map filter].
  rewrite (strip_id x Hh Hl). destruct x; [contradiction|reflexivity].
Qed.

Lemma tokens_clean_id (l : list string) :
  (forall x, In x l -> clean_token x) -> tokens l = l.
Proof.
  induction l as [|x r IH]; intros H; [reflexivity|].
  cbn [tokens flat_map]. fold (tokens r).
  rewrite tokens_of_clean by (apply H; left; reflexivity).
  rewrite IH by (intros y Hy; apply H; right; exact Hy). reflexivity.
Qed.

(** X4: normalizing an already normalized list changes nothing but,
    possibly, the order of entries that are equal up to case: the second
    result has the same entries, each once, and is sorted. *)
Theorem normalize_skills_idempotent (skills_list : list string) out :
  normalize_skills E (JArr (map JStr skills_list)) = Ok out ->
  (forall x, In x out -> clean_token x)
  /\ exists out',
       normalize_skills E (JArr (map JStr out)) = Ok out'
       /\ Permutation out out'
       /\ Sorted le_lower out'.
Proof.
  rewrite normalize_skills_strings. intros H. injection H as Hout.
  assert (Hclean : forall x, In x out -> clean_token x).
  { intros x Hx. rewrite <- Hout in Hx.
    apply (proj1 (sorted_set_In E E_lawful _ x)) in Hx.
    exact (tokens_clean skills_list x Hx). }
  split; [exact Hclean|].
  exists (sorted_lower (set_iter E (tokens out))).
  split; [apply normalize_skills_strings|].
  split; [|apply sorted_lower_sorted].
  rewrite (tokens_clean_id out Hclean).
  eapply perm_trans; [|apply sorted_lower_perm].
  apply NoDup_Permutation.
  - rewrite <- Hout. apply sorted_set_NoDup; assumption.
  - apply E_lawful.
  - intros x. symmetry. apply E_lawful.
Qed.

End NormalizeAnyInput.

(** ** The [try] body on any document *)

Section AnyDocument.
Import PyStr.

Variable E : Env.

Lemma add_technologies_outcome (techs : list json) :
  forall kw,
    match add_technologies techs kw with
    | Ok _ => forallb is_str techs = true
    | Raise e => e = AttributeError /\ forallb is_str techs = false
    end.
Proof.
  induction techs as [|t rest IH]; intros kw; cbn [add_technologies forallb].
  - reflexivity.
  - destruct t; cbn [py_strip bind is_str andb]; try (split; reflexivity).
    apply IH.
Qed.

Lemma add_projects_outcome (projs : list json) :
  forall kw,
    match add_projects projs kw with
    | Ok _ => forallb project_processable projs = true
    | Raise _ => forallb project_processable projs = false
    end.
Proof.
  induction projs as [|p rest IH]; intros kw; cbn [add_projects forallb].
  - reflexivity.
  - destruct p; cbn [py_get bind project_processable andb]; try reflexivity.
    unfold iterates.
    destruct (py_iter (dict_get fields "technologies" (JArr []))) as [techs|e];
      cbn [bind andb]; [|reflexivity].
    pose proof (add_technologies_outcome techs kw) as Ht.
    destruct (add_technologies techs kw) as [kw1|e]; cbn [bind].
    + rewrite Ht. cbn [andb]. apply IH.
    + destruct Ht as [_ ->]. reflexivity.
Qed.

Lemma add_certifications_outcome (certs : list json) :
  forall kw,
    match add_certifications certs kw with
    | Ok _ => forallb certification_shaped certs = true
    | Raise e => e = AttributeError /\ forallb certification_shaped certs = false
    end.
Proof.
  induction certs as [|c rest IH]; intros kw; cbn [add_certifications forallb].
  - reflexivity.
  - destruct c; cbn [add_certification py_get bind certification_shaped andb];
      try apply IH.
    destruct (dict_get fields "name" (JStr EmptyString));
      cbn [py_strip bind is_str andb]; try (split; reflexivity).
    destruct (truthy (strip s)); cbn [bind]; apply IH.
Qed.

Lemma gather_keywords_outcome (fields : list (string * json)) (skills : list string) :
  match gather_keywords (JObj fields) skills with
  | Ok _ =>
      iterates project_processable (dict_get fields "projects" (JArr [])) = true
      /\ iterates certification_shaped
                  (dict_get fields "certifications" (JArr [])) = true
  | Raise _ =>
      iterates project_processable (dict_get fields "projects" (JArr []))
      && iterates certification_shaped
                  (dict_get fields "certifications" (JArr [])) = false
  end.
Proof.
  unfold gather_keywords, iterates. cbn [py_get bind].
  destruct (py_iter (dict_get fields "projects" (JArr []))) as [projs|e];
    cbn [bind andb]; [|reflexivity].
  pose proof (add_projects_outcome projs skills) as Hp.
  destruct (add_projects projs skills) as [kw1|e]; cbn [bind];
    [|rewrite Hp; reflexivity].
  rewrite Hp. cbn [andb].
  destruct (py_iter (dict_get fields "certifications" (JArr []))) as [certs|e];
    cbn [bind]; [|reflexivity].
  pose proof (add_certifications_outcome certs kw1) as Hc.
  destruct (add_certifications certs kw1) as [kw2|e].
  - split; [reflexivity|exact Hc].
  - destruct Hc as [_ Hc]. exact Hc.
Qed.

(** X5: the [try] body returns a record exactly on the documents that
    are an object whose [skills] iterates over strings, whose [projects]
    iterates over objects with [technologies] iterating over strings,
    and whose [certifications] iterates over values of which every
    object has a string [name]; on every other document it raises. *)
Theorem structure_resume_outcome (file_stem : string) (parsed_core : json) (now : nat) :
  match structure_resume E file_stem parsed_core now with
  | Ok _ => processable parsed_core = true
  | Raise _ => processable parsed_core = false
  end.
Proof.
  unfold structure_resume.
  destruct parsed_core; cbn [py_get bind processable]; try reflexivity.
  pose proof (normalize_skills_result E (dict_get fields "skills" (JArr []))) as Hn.
  destruct (normalize_skills E (dict_get fields "skills" (JArr []))) as [skills|e];
    cbn [bind].
  - rewrite Hn. cbn [andb].
    pose proof (gather_keywords_outcome fields skills) as Hg.
    destruct (gather_keywords (JObj fields) skills) as [kws|e]; cbn [bind].
    + destruct Hg as [-> ->]. reflexivity.
    + exact Hg.
  - destruct Hn as [_ ->]. reflexivity.
Qed.

Lemma structure_resume_times (file_stem : string) (parsed_core : json) (now : nat) r :
  structure_resume E file_stem parsed_core now = Ok r ->
  updated_at r = (utcnow E now ++ "Z")%string
  /\ created_at r = (utcnow E (S now) ++ "Z")%string.
Proof.
  unfold structure_resume.
  destruct parsed_core; cbn [py_get bind]; try discriminate.
  destruct (normalize_skills E (dict_get fields "skills" (JArr []))) as [skills|e];
    cbn [bind]; [|discriminate].
  destruct (gather_keywords (JObj fields) skills) as [kws|e];
    cbn [bind]; [|discriminate].
  intros H; injection H as <-. split; reflexivity.
Qed.

End AnyDocument.

(** ** The batch as a whole *)

Section WholeBatch.
Import PyStr.

Variable E : Env.
Variable input_dir : string.

Lemma process_files_written (pdf_files : list string) :
  forall all_resumes w res w',
    process_files E input_dir pdf_files all_resumes w = (res, w') ->
    written w' = written w.
Proof.
  induction pdf_files as [|f rest IH]; intros acc w res w' H;
    cbn [process_files] in H.
  - inversion H; reflexivity.
  - unfold guarded in H.
    destruct (raises E (Stdout _)); [inversion H; reflexivity|].
    destruct (raises E (Extract _ _)); [inversion H; reflexivity|].
    destruct (raises E (Loads _)); [inversion H; reflexivity|].
    destruct (json_loads E (raw_output_of E input_dir f)) as [j|].
    + destruct (structure_resume E (stem f) j _) as [r|e].
      * rewrite (IH _ _ _ _ H). reflexivity.
      * inversion H; reflexivity.
    + destruct (raises E (Stdout _)); [inversion H; reflexivity|].
      rewrite (IH _ _ _ _ H). reflexivity.
Qed.

Lemma structures_false (f : string) (j : json) (now : nat) e :
  json_loads E (raw_output_of E input_dir f) = Some j ->
  structure_resume E (stem f) j now = Raise e ->
  structures E input_dir f = false.
Proof.
  intros Hj Hr. unfold structures. rewrite Hj.
  destruct (structure_resume E (stem f) j 0) as [r0|e0] eqn:H0; [|reflexivity].
  destruct (structure_resume_succeeds E _ (stem f) _ _ now _ H0) as [r' Hr'].
  congruence.
Qed.

Lemma structures_true (f : string) (j : json) (now : nat) r :
  json_loads E (raw_output_of E input_dir f) = Some j ->
  structure_resume E (stem f) j now = Ok r ->
  structures E input_dir f = true.
Proof.
  intros Hj Hr. unfold structures. rewrite Hj.
  destruct (structure_resume_succeeds E _ (stem f) _ _ 0 _ Hr) as [r' ->].
  reflexivity.
Qed.

(** X7: a matched file whose extraction decodes to a document on which
    the [try] body raises costs the whole batch: the run raises,
    whatever the other files hold, and the files written so far stay
    as they were, so the records already built are not saved. *)
Theorem unprocessable_document_loses_the_batch
        (output_json_path : string) (w : world) (f : string) :
  In f (glob_pdf E input_dir) ->
  structures E input_dir f = false ->
  exists e w',
    convert_pdfs_to_json E input_dir output_json_path w = (Raise e, w')
    /\ written w' = written w.
Proof.
  intros Hf Hbad. unfold convert_pdfs_to_json, guarded.
  destruct (raises E (Glob input_dir)) as [e|]; [exists e, w; split; reflexivity|].
  destruct (process_files E input_dir (glob_pdf E input_dir) [] w) as [[rs|e] w0]
    eqn:Hp.
  - pose proof (process_files_raises _ _ _ _ _ _ _ Hp f Hf) as Hgood.
    congruence.
  - exists e, w0. split; [reflexivity|].
    eapply process_files_written; eassumption.
Qed.

(** X9: a run that returns prints, for each matched file in scan order,
    its progress line, followed by the failure line when its extraction
    does not decode, and ends with one summary line whose count is the
    number of records returned, which is the number of files whose
    extraction decoded. *)
Theorem transcript_of_a_run (output_json_path : string) (w : world) rs w' :
  convert_pdfs_to_json E input_dir output_json_path w = (Ok rs, w') ->
  stdout w'
  = stdout w ++ flat_map (progress_lines E input_dir) (glob_pdf E input_dir)
             ++ [summary_line E output_json_path (List.length rs)]
  /\ List.length rs
     = List.length (filter (parses E input_dir) (glob_pdf E input_dir)).
Proof.
  intros H. destruct (convert_returns _ _ _ _ _ _ H) as [w0 [Hp ->]].
  destruct (process_files_Ok _ _ _ _ _ _ _ Hp) as [added [Heq [HF [Hout _]]]].
  cbn [app] in Heq. subst added. split.
  - cbn [print write_json stdout]. rewrite Hout, <- app_assoc.
    unfold summary_line. reflexivity.
  - symmetry. eapply Forall2_length; eassumption.
Qed.

Lemma process_files_times (pdf_files : list string) :
  forall all_resumes w rs w',
    process_files E input_dir pdf_files all_resumes w = (Ok rs, w') ->
    forall k r,
      nth_error rs (List.length all_resumes + k) = Some r ->
      updated_at r = (utcnow E (clock w + 2 * k) ++ "Z")%string
      /\ created_at r = (utcnow E (clock w + 2 * k + 1) ++ "Z")%string.
Proof.
  induction pdf_files as [|f rest IH]; intros acc w rs w' H k r Hk.
  - cbn [process_files] in H. inversion H; subst.
    assert (Hlt : (List.length rs + k < List.length rs)%nat)
      by (apply nth_error_Some; congruence).
    lia.
  - pose proof H as Hwhole. cbn [process_files] in H. unfold guarded in H.
    destruct (raises E (Stdout _)); [discriminate|].
    destruct (raises E (Extract _ _)); [discriminate|].
    destruct (raises E (Loads _)); [discriminate|].
    destruct (json_loads E (raw_output_of E input_dir f)) as [j|] eqn:Hj.
    + destruct (structure_resume E (stem f) j _) as [r0|e] eqn:Hr; [|discriminate].
      destruct k as [|k].
      * destruct (process_files_Ok _ _ _ _ _ _ _ H) as [added [-> _]].
        rewrite Nat.add_0_r, <- app_assoc, nth_error_app2 in Hk by lia.
        rewrite Nat.sub_diag in Hk. cbn in Hk. injection Hk as <-.
        destruct (structure_resume_times _ _ _ _ _ Hr) as [Hu Hc].
        cbn [print clock] in Hu, Hc. rewrite Hu, Hc.
        rewrite Nat.mul_0_r, Nat.add_0_r, Nat.add_1_r. split; reflexivity.
      * replace (List.length acc + S k)%nat
          with (List.length (acc ++ [r0]) + k)%nat in Hk
          by (rewrite List.length_app; cbn; lia).
        destruct (IH _ _ _ _ H k r Hk) as [Hu Hc].
        cbn [tick2 print clock] in Hu, Hc. rewrite Hu, Hc.
        replace (S (S (clock w)) + 2 * k)%nat with (clock w + 2 * S k)%nat by lia.
        split; reflexivity.
    + destruct (raises E (Stdout _)); [discriminate|].
      apply (IH _ _ _ _ H k r Hk).
Qed.

(** X10: the clock is read twice for every record and never otherwise:
    the record at position [k] of the returned collection carries the
    reading number [2k] (counted from the start of the run) as
    updated_at and the next one as created_at, each followed by ["Z"]. *)
Theorem timestamps_of_a_run (output_json_path : string) (w : world) rs w' :
  convert_pdfs_to_json E input_dir output_json_path w = (Ok rs, w') ->
  clock w' = (clock w + 2 * List.length rs)%nat
  /\ forall k r,
       nth_error rs k = Some r ->
       updated_at r = (utcnow E (clock w + 2 * k) ++ "Z")%string
       /\ created_at r = (utcnow E (clock w + 2 * k + 1) ++ "Z")%string.
Proof.
  intros H. destruct (convert_returns _ _ _ _ _ _ H) as [w0 [Hp ->]]. split.
  - destruct (process_files_Ok _ _ _ _ _ _ _ Hp) as [added [Heq [_ [_ [_ Hck]]]]].
    cbn [app] in Heq. subst added. cbn [print write_json clock]. exact Hck.
  - intros k r Hk. apply (process_files_times _ _ _ _ _ Hp k r). exact Hk.
Qed.

End WholeBatch.

(** ** The documents to index *)

Section IndexDocuments.
Import PyStr.

Variable E : Env.

Lemma all_strs_map (strs : list string) : all_strs (map JStr strs) = Ok strs.
Proof.
  induction strs as [|s rest IH]; cbn [map all_strs]; [reflexivity|].
  rewrite IH. reflexivity.
Qed.

Lemma all_strs_outcome (items : list json) :
  match all_strs items with
  | Ok strs => items = map JStr strs
  | Raise e => e = TypeError /\ forallb is_str items = false
  end.
Proof.
  induction items as [|i rest IH]; cbn [all_strs forallb]; [reflexivity|].
  destruct i; cbn [is_str andb]; try (split; reflexivity).
  destruct (all_strs rest) as [strs|e]; cbn [bind].
  - rewrite IH. reflexivity.
  - exact IH.
Qed.

Lemma keywords_line_outcome (resume : json) :
  match keywords_line resume with
  | Ok _ => indexable resume = true
  | Raise _ => indexable resume = false
  end.
Proof.
  unfold keywords_line, py_join, indexable, iterates.
  destruct resume; cbn [py_get bind]; try reflexivity.
  destruct (py_iter (dict_get fields "keywords" (JArr []))) as [items|e];
    cbn [bind]; [|reflexivity].
  pose proof (all_strs_outcome items) as H.
  destruct (all_strs items) as [strs|e]; cbn [bind].
  - rewrite H. apply forallb_is_str. exists strs; reflexivity.
  - apply H.
Qed.

Lemma make_document_outcome (resume : json) :
  match make_document E resume with
  | Ok d =>
      indexable resume = true
      /\ doc_metadata d
         = [("name", field resume "name" (JStr ""));
            ("unique_id", field resume "unique_id" (JStr ""));
            ("designation", field resume "designation" (JStr ""))]
  | Raise _ => indexable resume = false
  end.
Proof.
  unfold make_document.
  pose proof (keywords_line_outcome resume) as H.
  destruct (keywords_line resume) as [line|e]; cbn [bind]; [|exact H].
  destruct resume; cbn [indexable] in H; try discriminate.
  cbn [py_get bind field doc_metadata]. split; [exact H|reflexivity].
Qed.

Lemma documents_loop_outcome (resumes : list json) :
  forall documents,
    match documents_loop E resumes documents with
    | Ok docs =>
        forallb indexable resumes = true
        /\ exists added,
             docs = documents ++ added
             /\ Forall2 (fun resume d => make_document E resume = Ok d) resumes added
    | Raise _ => forallb indexable resumes = false
    end.
Proof.
  induction resumes as [|resume rest IH]; intros documents;
    cbn [documents_loop forallb].
  - split; [reflexivity|]. exists []. rewrite app_nil_r. split; constructor.
  - pose proof (make_document_outcome resume) as Hm.
    destruct (make_document E resume) as [d|e] eqn:Hd; cbn [bind].
    + destruct Hm as [-> _]. cbn [andb].
      specialize (IH (documents ++ [d])).
      destruct (documents_loop E rest (documents ++ [d])) as [docs|e]; [|exact IH].
      destruct IH as [Hall [added [-> HF]]]. split; [exact Hall|].
      exists (d :: added). rewrite <- app_assoc. split; [reflexivity|].
      constructor; assumption.
    + rewrite Hm. reflexivity.
Qed.

(** X12: step 3 returns exactly when the decoded collection can be
    iterated and every item is an object whose [keywords] iterates over
    strings; it then makes one document per item, in order, whose
    metadata holds exactly the keys name, unique_id and designation
    with the item's values, the empty string standing for a missing
    key. *)
Theorem build_documents_outcome (resumes_list : json) :
  match build_documents E resumes_list with
  | Ok docs =>
      iterates indexable resumes_list = true
      /\ Forall2 (fun resume d =>
                    doc_metadata d
                    = [("name", field resume "name" (JStr ""));
                       ("unique_id", field resume "unique_id" (JStr ""));
                       ("designation", field resume "designation" (JStr ""))])
                 (iter_items resumes_list) docs
  | Raise _ => iterates indexable resumes_list = false
  end.
Proof.
  unfold build_documents, iterates, iter_items.
  destruct (py_iter resumes_list) as [resumes|e]; cbn [bind]; [|reflexivity].
  pose proof (documents_loop_outcome resumes []) as H.
  destruct (documents_loop E resumes []) as [docs|e]; [|exact H].
  destruct H as [Hall [added [-> HF]]]. split; [exact Hall|].
  cbn [app]. eapply Forall2_impl; [|exact HF].
  intros resume d Hd. cbv beta in Hd.
  pose proof (make_document_outcome resume) as Hm.
  rewrite Hd in Hm. apply Hm.
Qed.

Lemma keywords_line_to_json (r : Resume) :
  keywords_line (to_json r)
  = Ok (if truthy (join ", " (keywords r))
        then join ", " (keywords r) else "None").
Proof.
  unfold keywords_line, to_json, py_join. cbn [py_get bind].
  change (dict_get _ "keywords" (JArr [])) with (JArr (map JStr (keywords r))).
  cbn [py_iter bind]. rewrite all_strs_map. reflexivity.
Qed.

Lemma make_document_to_json (r : Resume) :
  make_document E (to_json r)
  = Ok {| doc_content :=
            ("Keywords: "
               ++ (if truthy (join ", " (keywords r))
                   then join ", " (keywords r) else "None")
               ++ nl ++ nl ++ json_dumps E (to_json r))%string;
          doc_metadata := [("name", name r);
                           ("unique_id", JStr (unique_id r));
                           ("designation", designation r)] |}.
Proof.
  unfold make_document. rewrite keywords_line_to_json. cbn [bind].
  unfold to_json at 2 3 4. cbn [py_get bind].
  reflexivity.
Qed.

Lemma documents_loop_to_json (rs : list Resume) :
  forall documents,
    exists added,
      documents_loop E (map to_json rs) documents = Ok (documents ++ added)
      /\ Forall2 (fun r d => make_document E (to_json r) = Ok d) rs added.
Proof.
  induction rs as [|r rest IH]; intros documents; cbn [map documents_loop].
  - exists []. rewrite app_nil_r. split; constructor.
  - pose proof (make_document_to_json r) as Hd.
    destruct (make_document E (to_json r)) as [d|e] eqn:Hm; [|discriminate].
    cbn [bind]. destruct (IH (documents ++ [d])) as [added [Heq HF]].
    rewrite Heq. exists (d :: added). rewrite <- app_assoc.
    split; [reflexivity|]. constructor; [exact Hm|exact HF].
Qed.

(** X13: the dicts that ingestion builds are always accepted by
    step 3: for every list of records it returns one document per
    record, in order; the document's unique_id metadata is the record's
    unique_id, its name and designation are the record's, and its text
    is ["Keywords: "] followed by the keywords joined by [", "] (or by
    ["None"] when that join is empty), an empty line and the record
    pretty-printed. *)
Theorem ingested_records_are_indexed (rs : list Resume) :
  exists docs,
    build_documents E (JArr (map to_json rs)) = Ok docs
    /\ Forall2
         (fun r d =>
            doc_metadata d = [("name", name r);
                              ("unique_id", JStr (unique_id r));
                              ("designation", designation r)]
            /\ doc_content d
               = ("Keywords: "
                    ++ (if truthy (join ", " (keywords r))
                        then join ", " (keywords r) else "None")
                    ++ nl ++ nl ++ json_dumps E (to_json r))%string)
         rs docs.
Proof.
  destruct (documents_loop_to_json rs []) as [added [Heq HF]].
  exists added. unfold build_documents. cbn [py_iter bind].
  split; [exact Heq|].
  eapply Forall2_impl; [|exact HF].
  intros r d Hd. cbv beta in Hd.
  rewrite make_document_to_json in Hd. injection Hd as <-.
  split; reflexivity.
Qed.

End IndexDocuments.

Section KeywordsLine.
Import PyStr.
Local Open Scope string_scope.

Lemma char_in_app (c : ascii) (a b : string) :
  char_in c (a ++ b) <-> char_in c a \/ char_in c b.
Proof.
  unfold char_in. induction a as [|x a IH]; cbn [String.append list_ascii_of_string In].
  - tauto.
  - rewrite IH. tauto.
Qed.

Lemma join_cons (sep x y : string) (rest : list string) :
  join sep (x :: y :: rest) = x ++ sep ++ join sep (y :: rest).
Proof. reflexivity. Qed.

Lemma append_empty (a b : string) : a ++ b = EmptyString -> a = EmptyString /\ b = EmptyString.
Proof. destruct a; cbn [String.append]; [tauto|discriminate]. Qed.

(** X14: the keywords header of an indexed record reads ["None"]
    exactly when the record has no keywords, when its only keyword is
    the empty string, or when its only keyword is the word None. *)
Theorem keywords_line_is_None (fields : list (string * json)) (ks : list string) :
  dict_get fields "keywords" (JArr []) = JArr (map JStr ks) ->
  (keywords_line (JObj fields) = Ok "None"
   <-> ks = [] \/ ks = [EmptyString] \/ ks = ["None"]).
Proof.
  intros Hk. unfold keywords_line, py_join. cbn [py_get bind]. rewrite Hk.
  cbn [py_iter bind]. rewrite all_strs_map. cbn [bind].
  destruct ks as [|x [|y rest]].
  - cbn. split; [intros _; left; reflexivity|reflexivity].
  - cbn [join String.concat]. destruct x as [|c x]; cbn [truthy].
    + split; [intros _; right; left; reflexivity|reflexivity].
    + split.
      * intros H. right; right. congruence.
      * intros [H|[H|H]]; try discriminate. congruence.
  - assert (Hc : char_in "," (join ", " (x :: y :: rest))).
    { rewrite join_cons. apply char_in_app. right. apply char_in_app. left.
      left; reflexivity. }
    split.
    + intros H. exfalso.
      assert (Hj : join ", " (x :: y :: rest) = "None").
      { destruct (join ", " (x :: y :: rest)) as [|c j]; [destruct Hc|].
        cbn [truthy] in H. congruence. }
      rewrite Hj in Hc. unfold char_in in Hc. cbn in Hc.
      intuition discriminate.
    + intros [H|[H|H]]; discriminate.
Qed.

End KeywordsLine.

(** ** The merge, further *)

Section MergeFurther.
Import PyStr.

Lemma dd_append_concat (u x : string) (m : list (string * list string)) :
  Permutation (x :: concat (map snd m)) (concat (map snd (dd_append u x m))).
Proof.
  induction m as [|[k parts] r IH]; cbn [dd_append map snd concat].
  - apply Permutation_refl.
  - destruct (k =? u)%string; cbn [map snd concat].
    + rewrite <- app_assoc. apply Permutation_middle.
    + eapply perm_trans; [apply Permutation_middle|].
      apply Permutation_app_head. exact IH.
Qed.

(** X15: the merge neither drops nor repeats a chunk: the entries of
    all blocks together are the formatted chunks, each as often as it
    was retrieved. *)
Theorem merge_keeps_every_chunk (query_docs : list Document) :
  Permutation (map format_chunk query_docs)
              (concat (map snd (merged_context query_docs)))
  /\ List.length (concat (map snd (merged_context query_docs)))
     = List.length query_docs.
Proof.
  assert (Hperm : Permutation (map format_chunk query_docs)
                              (concat (map snd (merged_context query_docs)))).
  { unfold merged_context.
    induction query_docs as [|d docs IH] using rev_ind; [constructor|].
    rewrite fold_left_app, map_app. cbn [fold_left map].
    eapply perm_trans; [|apply dd_append_concat].
    eapply perm_trans; [apply Permutation_sym, Permutation_cons_append|].
    apply perm_skip. exact IH. }
  split; [exact Hperm|].
  rewrite <- (Permutation_length Hperm). apply length_map.
Qed.

Lemma uid_in_first_seen (query_docs : list Document) (doc : Document) :
  In doc query_docs -> In (uid_of doc) (first_seen (map uid_of query_docs)).
Proof. intros H. apply first_seen_In. apply in_map; exact H. Qed.

(** X16: the blocks have pairwise distinct keys, there are no more
    blocks than chunks and none is empty; every retrieved chunk is in
    the block of its key, and a chunk whose metadata has no unique_id
    goes to the block ["unknown"]. *)
Theorem merge_blocks_are_keyed (query_docs : list Document) :
  NoDup (map fst (merged_context query_docs))
  /\ (List.length (merged_context query_docs) <= List.length query_docs)%nat
  /\ (forall k parts, In (k, parts) (merged_context query_docs) -> parts <> [])
  /\ forall doc,
       In doc query_docs ->
       (dict_lookup (metadata doc) "unique_id" = None -> uid_of doc = "unknown")
       /\ exists parts,
            In (uid_of doc, parts) (merged_context query_docs)
            /\ In (format_chunk doc) parts.
Proof.
  rewrite merged_context_grouped. unfold grouped.
  split; [|split; [|split]].
  - rewrite map_map. cbn [fst]. rewrite map_id. apply first_seen_NoDup.
  - rewrite length_map.
    rewrite <- (length_map uid_of query_docs).
    apply NoDup_incl_length; [apply first_seen_NoDup|].
    intros x Hx. apply first_seen_In; exact Hx.
  - intros k parts Hin. apply in_map_iff in Hin.
    destruct Hin as [k' [Heq Hk]]. inversion Heq; subst.
    apply (proj1 (first_seen_In _ _)) in Hk. apply in_map_iff in Hk.
    destruct Hk as [doc [Hu Hd]]. intros Hnil.
    assert (Hin : In (format_chunk doc) (block_of query_docs k)).
    { unfold block_of. apply in_map. apply filter_In. split; [exact Hd|].
      apply String.eqb_eq; exact Hu. }
    rewrite Hnil in Hin. destruct Hin.
  - intros doc Hd. split.
    + intros Hnone. unfold uid_of, dict_get. rewrite Hnone. reflexivity.
    + exists (block_of query_docs (uid_of doc)). split.
      * apply in_map_iff. exists (uid_of doc). split; [reflexivity|].
        apply uid_in_first_seen; exact Hd.
      * unfold block_of. apply in_map. apply filter_In. split; [exact Hd|].
        apply String.eqb_refl.
Qed.

Lemma join_head_empty (sep x : string) (rest : list string) :
  join sep (x :: rest) = EmptyString -> x = EmptyString.
Proof.
  destruct rest as [|y rest]; cbn [join String.concat]; [tauto|].
  intros H. apply append_empty in H. tauto.
Qed.

(** X17: the evidence text handed to the answer chain is empty exactly
    when no chunk was retrieved. *)
Theorem context_text_empty_iff (query_docs : list Document) :
  context_text query_docs = EmptyString <-> query_docs = [].
Proof.
  split; [|intros ->; reflexivity].
  intros H. destruct query_docs as [|d docs]; [reflexivity|]. exfalso.
  unfold context_text in H. rewrite merged_context_grouped in H.
  unfold grouped in H. cbn [map first_seen] in H.
  apply join_head_empty in H. cbn [snd] in H.
  unfold block_of in H. cbn [filter] in H. rewrite String.eqb_refl in H.
  cbn [map] in H. apply join_head_empty in H.
  unfold format_chunk, chunk_header in H. cbn in H. discriminate H.
Qed.

(** X18: appending under a key, then reading: the key holds its former
    list (the empty list if it was new) with the part at the end, and
    every other key reads as before. *)
Theorem dd_append_lookup (uid part : string) (d : list (string * list string)) :
  dict_lookup (dd_append uid part d) uid = Some (dict_get d uid [] ++ [part])
  /\ forall k, k <> uid -> dict_lookup (dd_append uid part d) k = dict_lookup d k.
Proof.
  unfold dict_get. split.
  - induction d as [|[k parts] r IH]; cbn [dd_append dict_lookup].
    + rewrite String.eqb_refl. reflexivity.
    + destruct (String.eqb_spec k uid) as [->|Hne]; cbn [dict_lookup].
      * rewrite String.eqb_refl. reflexivity.
      * destruct (String.eqb_spec k uid) as [Heq|_]; [contradiction|exact IH].
  - intros k Hk. induction d as [|[k' parts] r IH]; cbn [dd_append dict_lookup].
    + destruct (String.eqb_spec uid k) as [Heq|_]; [symmetry in Heq; contradiction|].
      reflexivity.
    + destruct (String.eqb_spec k' uid) as [->|Hne]; cbn [dict_lookup].
      * destruct (String.eqb_spec uid k) as [Heq|_];
          [symmetry in Heq; contradiction|reflexivity].
      * rewrite IH. reflexivity.
Qed.

End MergeFurther.

(** ** From the batch to the index *)

Section BatchToIndex.
Import PyStr.

(** X20: the documents built from the collection a run returns carry,
    as unique_id metadata and in scan order, the stems of the files
    whose extraction decoded. *)
Theorem index_ids_follow_scan_order
        (E : Env) (input_dir output_json_path : string) (w : world) rs w' :
  convert_pdfs_to_json E input_dir output_json_path w = (Ok rs, w') ->
  exists docs,
    build_documents E (JArr (map to_json rs)) = Ok docs
    /\ map (fun d => dict_lookup (doc_metadata d) "unique_id") docs
       = map (fun f => Some (JStr (stem f)))
             (filter (parses E input_dir) (glob_pdf E input_dir)).
Proof.
  intros H. destruct (convert_Ok _ _ _ _ _ _ H) as [HF _].
  apply produced_unique_ids in HF.
  destruct (documents_loop_to_json E rs []) as [docs [Heq Hdocs]].
  exists docs. split; [exact Heq|].
  rewrite <- (map_map stem (fun s => Some (JStr s))), <- HF.
  clear HF H Heq. induction Hdocs as [|r d rs' ds Hd _ IH]; [reflexivity|].
  cbn [map]. rewrite IH. f_equal.
  rewrite make_document_to_json in Hd. injection Hd as <-. reflexivity.
Qed.

Lemma index_ids_follow_scan_order_sample :
  exists rs w' docs,
    convert_pdfs_to_json sample_env "three" "out.json" initial_world = (Ok rs, w')
    /\ build_documents sample_env (JArr (map to_json rs)) = Ok docs
    /\ map (fun d => dict_lookup (doc_metadata d) "unique_id") docs
       = [Some (JStr "a"); Some (JStr "c")].
Proof.
  eexists; eexists.
  destruct (index_ids_follow_scan_order sample_env "three" "out.json"
              initial_world _ _ eq_refl) as [docs [H1 H2]].
  exists docs. split; [reflexivity|]. split; [exact H1|exact H2].
Defined.

End BatchToIndex.

(** ** Samples for the further properties *)

Section FurtherSamples.
Import PyStr.

Lemma normalize_skills_of_str_sample :
  exists out,
    normalize_skills sample_env (JStr "Go, Goo") = Ok out
    /\ NoDup out
    /\ out = ["G"; "o"].
Proof.
  destruct (normalize_skills_of_str sample_env sample_env_lawful "Go, Goo")
    as [out [H [Hnd _]]].
  exists out. split; [exact H|]. split; [exact Hnd|].
  vm_compute in H. congruence.
Defined.

Lemma normalize_skills_idempotent_sample :
  exists out,
    normalize_skills sample_env (JArr (map JStr python_skills)) = Ok out
    /\ exists out',
         normalize_skills sample_env (JArr (map JStr out)) = Ok out'
         /\ Permutation out out'.
Proof.
  eexists. split; [reflexivity|].
  destruct (normalize_skills_idempotent sample_env sample_env_lawful
              python_skills _ eq_refl) as [_ [out' [H1 [H2 _]]]].
  exists out'. split; assumption.
Defined.

Lemma unprocessable_document_loses_the_batch_sample :
  In "b.pdf" (glob_pdf sample_env "listed")
  /\ structures sample_env "listed" "b.pdf" = false
  /\ exists e w',
       convert_pdfs_to_json sample_env "listed" "out.json" used_world = (Raise e, w')
       /\ written w' = written used_world.
Proof.
  assert (Hin : In "b.pdf" (glob_pdf sample_env "listed"))
    by (right; left; reflexivity).
  split; [exact Hin|]. split; [reflexivity|].
  exact (unprocessable_document_loses_the_batch sample_env "listed" "out.json"
           used_world "b.pdf" Hin eq_refl).
Defined.

Lemma transcript_of_a_run_sample :
  exists rs w',
    convert_pdfs_to_json sample_env "three" "out.json" initial_world = (Ok rs, w')
    /\ stdout w'
       = ["Processing a.pdf..."; "Processing b.pdf...";
          failure_line sample_env "three" "b.pdf"; "Processing c.pdf...";
          summary_line sample_env "out.json" 2]%string.
Proof.
  eexists; eexists. split; [reflexivity|].
  rewrite (proj1 (transcript_of_a_run sample_env "three" "out.json"
                    initial_world _ _ eq_refl)).
  reflexivity.
Defined.

Lemma timestamps_of_a_run_sample :
  exists rs w',
    convert_pdfs_to_json sample_env "three" "out.json" initial_world = (Ok rs, w')
    /\ clock w' = 4%nat
    /\ map updated_at rs = ["2024-06-20T10:00:00Z"; "2024-06-20T10:00:02Z"]%string
    /\ map created_at rs = ["2024-06-20T10:00:01Z"; "2024-06-20T10:00:03Z"]%string.
Proof.
  eexists; eexists. split; [reflexivity|].
  split; [|split; reflexivity].
  rewrite (proj1 (timestamps_of_a_run sample_env "three" "out.json"
                    initial_world _ _ eq_refl)).
  reflexivity.
Defined.

Lemma keywords_line_is_None_sample :
  keywords_line (JObj [("keywords", JArr [JStr EmptyString])]) = Ok "None"%string
  /\ keywords_line (JObj [("name", JStr "Ada")]) = Ok "None"%string.
Proof.
  split.
  - apply (proj2 (keywords_line_is_None
                    [("keywords", JArr [JStr EmptyString])] [EmptyString] eq_refl)).
    right; left; reflexivity.
  - apply (proj2 (keywords_line_is_None [("name", JStr "Ada")] [] eq_refl)).
    left; reflexivity.
Defined.

End FurtherSamples.
